(** * StepViz: execution-trace capture, step store and heap diagram

A shallow embedding of the trace pipeline of StepViz:

- the Python instrumentation that [src/services/PythonService.js] installs
  into the in-browser interpreter ([custom_import], [VisualizerState],
  [OutputCapturer], [create_error_state], [filter_system_variables],
  [trace_execution], [run_with_trace]);
- the JavaScript side of the same file (the [usePythonStore] store,
  [processExecutionSteps], [runCode]);
- the drawing code of [src/components/PythonTutorViz.jsx] ([drawList],
  [renderReferenceElement], [drawCallStack], [detectImportError], the
  rendering effect) with [utils] of [src/visualization/config.js].

The interpreter itself is not part of the repository.  What it decides
(the string form [str(v)] of a value, the lower-case form of a name,
whether the real [__import__] finds a module, which trace events it
delivers and when) enters the development as data: a [runtime] record
and, per run, a [run] record. *)

From Stdlib Require Import ZArith QArith String Ascii List Lia.
From stdpp Require Import gmap strings list pretty.
Import ListNotations.

Set Warnings "-register-all".

Local Open Scope string_scope.
Local Open Scope list_scope.
Local Open Scope Z_scope.

(** ** Strings and dictionaries as Python and JavaScript use them *)

Module Str.

(** [s.startswith(p)] *)
Definition startswith (s p : string) : bool := String.prefix p s.

(** [s.startswith((p1, ..., pn))] *)
Definition startswith_any (s : string) (ps : list string) : bool :=
  existsb (startswith s) ps.

(** [sub in s] (Python), [s.includes(sub)] (JavaScript) *)
Fixpoint includes (s sub : string) : bool :=
  String.prefix sub s ||
  match s with
  | EmptyString => false
  | String _ s' => includes s' sub
  end.

(** [x in [x1, ..., xn]] on strings *)
Definition mem (x : string) (l : list string) : bool :=
  existsb (String.eqb x) l.

Definition lower_ascii (c : ascii) : ascii :=
  let n := nat_of_ascii c in
  if ((65 <=? n) && (n <=? 90))%nat then ascii_of_nat (n + 32) else c.

(** The letters [A] to [Z] lowered and every other character kept: what
    [s.lower()] is for a string of ASCII characters. *)
Fixpoint lower (s : string) : string :=
  match s with
  | EmptyString => EmptyString
  | String c s' => String (lower_ascii c) (lower s')
  end.

(** the one-character string of a line feed *)
Definition newline : string := String (ascii_of_nat 10) EmptyString.

(** the one-character string of a double quote *)
Definition dquote : string := String (ascii_of_nat 34) EmptyString.

(** What follows the first occurrence of [sub] in [s]. *)
Fixpoint after_first (s sub : string) : option string :=
  if String.prefix sub s
  then Some (String.substring (String.length sub)
               (String.length s - String.length sub) s)
  else match s with
       | EmptyString => None
       | String _ s' => after_first s' sub
       end.

(** The longest prefix without a line feed: what [[^\n]*] matches. *)
Fixpoint line_prefix (s : string) : string :=
  match s with
  | EmptyString => EmptyString
  | String c s' =>
      if Nat.eqb (nat_of_ascii c) 10 then EmptyString
      else String c (line_prefix s')
  end.

Definition is_space (c : ascii) : bool :=
  let n := nat_of_ascii c in
  (Nat.eqb n 32 || ((9 <=? n) && (n <=? 13)))%nat.

Fixpoint trim_start (s : string) : string :=
  match s with
  | EmptyString => EmptyString
  | String c s' => if is_space c then trim_start s' else s
  end.

Fixpoint trim_end (s : string) : string :=
  match s with
  | EmptyString => EmptyString
  | String c s' =>
      match trim_end s' with
      | EmptyString => if is_space c then EmptyString else String c EmptyString
      | t => String c t
      end
  end.

(** [s.trim()], on the ASCII white space *)
Definition trim (s : string) : string := trim_end (trim_start s).

(** [', '.join(l)] and friends *)
Fixpoint join (sep : string) (l : list string) : string :=
  match l with
  | [] => ""
  | [x] => x
  | x :: l' => x +:+ sep +:+ join sep l'
  end.

End Str.

(** A Python dict (or JS object) with string keys, in insertion order. *)
Module Dict.
Section Dict.
Context {V : Type}.

Fixpoint get (k : string) (d : list (string * V)) : option V :=
  match d with
  | [] => None
  | (k', v) :: d' => if String.eqb k k' then Some v else get k d'
  end.

(** [d[k] = v]: an existing key keeps its place *)
Fixpoint set (k : string) (v : V) (d : list (string * V)) : list (string * V) :=
  match d with
  | [] => [(k, v)]
  | (k', v') :: d' =>
      if String.eqb k k' then (k, v) :: d' else (k', v') :: set k v d'
  end.

Definition has (k : string) (d : list (string * V)) : bool :=
  match get k d with Some _ => true | None => false end.

Definition keys (d : list (string * V)) : list string := map fst d.
End Dict.
End Dict.

(** * The Python side of [PythonService.js] *)
Module Py.

(** ** Values of the interpreter

    A live Python value as [process_value] can tell it apart.  [oid] is the
    identity [id(val)] of an object; two occurrences with the same [oid]
    are the same live object.  [cls] is [val.__class__.__name__]. *)
Inductive pyval : Type :=
| PyNone
| PyBool (b : bool)
| PyInt (z : Z)
| PyFloat (literal : string)
| PyStr (s : string)
| PyTuple (oid : N) (elems : list pyval)
| PyList (oid : N) (elems : list pyval)
  (* a dict or an instance of a subclass of dict (collections.Counter,
     OrderedDict, defaultdict): [isinstance(val, dict)] holds *)
| PyDict (oid : N) (cls : string) (items : list (pyval * pyval))
  (* [callable(val)]; [params] is [co_varnames[:co_argcount]] when the
     value has a [__code__], [None] for classes and builtins *)
| PyCallable (oid : N) (name : string) (params : option (list string))
  (* a module; [has_file] tells whether it has a [__file__] *)
| PyModule (name : string) (has_file : bool)
  (* any other object: [items] is its [items()] view, [iterator] tells
     whether it has [__iter__] and [__next__], [pattern] is its [pattern]
     attribute *)
| PyObject (oid : N) (cls : string) (items : list (pyval * pyval))
           (iterator : bool) (pattern : string).

(** What the interpreter contributes. *)
Record runtime : Type := {
  (** [str(val)] *)
  py_str : pyval -> string;
  (** [str(d)] of a dict whose keys and values are strings *)
  dict_str : list (string * string) -> string;
  (** [s.lower()] *)
  py_lower : string -> string;
  (** the interpreter's own [builtins.__import__]: the module, or the
      message of the [ImportError] it raises *)
  real_import : string -> string + pyval;
}.

(** ** PYTHON_SETUP_CODE *)

Definition unsupported_modules : list string :=
  ["numpy"; "np"; "pandas"; "pd"; "matplotlib"; "plt"; "scipy"; "sk";
   "sklearn"; "requests"].

(** The modules the rejection message for [requests] enumerates. *)
Definition allowed_modules : list string :=
  ["**future**"; "abc"; "array"; "bisect"; "calendar"; "cmath";
   "collections"; "copy"; "datetime"; "decimal"; "doctest"; "fractions";
   "functools"; "hashlib"; "heapq"; "io"; "itertools"; "json"; "locale";
   "math"; "operator"; "pickle"; "pprint"; "random"; "re"; "string";
   "types"; "typing"; "unittest"].

Definition requests_message : string :=
  "requests not found or not supported - Only these modules can be imported: **future**, abc, array, bisect, calendar, cmath, collections, copy, datetime, decimal, doctest, fractions, functools, hashlib, heapq, io, itertools, json, locale, math, operator, pickle, pprint, random, re, string, types, typing, unittest".

Definition unsupported_message (name : string) : string :=
  "Module '" +:+ name +:+
  "' is not supported in this environment. Please use standard Python libraries only.".

(** [custom_import(name, *args, **kwargs)]: [inl msg] is
    [raise ImportError(msg)]. *)
Definition custom_import (rt : runtime) (name : string) : string + pyval :=
  if Str.mem (py_lower rt name) unsupported_modules then
    if String.eqb (py_lower rt name) "requests" then inl requests_message
    else inl (unsupported_message name)
  else real_import rt name.

(** ** Snapshots: value descriptors and heap entries *)

Inductive value_desc : Type :=
| Primitive (value : string)
| Reference (id : string).

(** The fields of a heap entry, by its ["type"]. *)
Inductive heap_body : Type :=
| HList (objectType : string) (elements : list value_desc)
| HDict (value : list (string * string))
| HFunction (name value : string)
| HCounter (value : list (string * string)) (object_id : N).

(** A heap entry; ["annotation"] is a key any entry may get from the
    post-processing of [run_with_trace]. *)
Record heap_entry : Type := mkEntry {
  body : heap_body;
  annotation : option string;
}.

Definition entry_type (e : heap_entry) : string :=
  match body e with
  | HList _ _ => "list"
  | HDict _ => "dict"
  | HFunction _ _ => "function"
  | HCounter _ _ => "Counter"
  end.

Abbreviation heap_map := (gmap string heap_entry).

(** The ["heap"] of a captured step is a Python object: either the one dict
    [visualizer.heap] that every call of [capture_frame] stores, or a dict
    of the step's own (the [{}] of [create_error_state]). *)
Inductive heap_ref : Type :=
| SharedHeap
| OwnHeap (h : heap_map).

(** One element of [execution_steps], as Python holds it. *)
Record py_step : Type := mkStep {
  frame_name : string;
  variables : list (string * value_desc);
  step_heap : heap_ref;
  output : string;
  currentLine : Z;
}.

(** The module-level state of the instrumentation: [visualizer.heap],
    [visualizer.next_heap_id], [capturer.value], [execution_steps] and the
    binding of [sys.stdout]. *)
Record py_state : Type := mkState {
  heap : heap_map;
  next_heap_id : N;
  capturer_value : string;
  execution_steps : list py_step;
  (** whether [sys.stdout] is [capturer] (set when the instrumentation is
      loaded) or [sys.__stdout__] (restored when [run_with_trace] ends) *)
  stdout_is_capturer : bool;
}.

Definition set_heap (h : heap_map) (st : py_state) : py_state :=
  mkState h (next_heap_id st) (capturer_value st) (execution_steps st)
          (stdout_is_capturer st).

Definition set_steps (l : list py_step) (st : py_state) : py_state :=
  mkState (heap st) (next_heap_id st) (capturer_value st) l
          (stdout_is_capturer st).

(** [execution_steps.append(step)] *)
Definition append_step (s : py_step) (st : py_state) : py_state :=
  set_steps (execution_steps st ++ [s]) st.

(** ** VISUALIZER_STATE_CODE *)

Definition heap_id_of (n : N) : string := "id" +:+ pretty n.

(** [VisualizerState.get_heap_id] *)
Definition get_heap_id (st : py_state) : string * py_state :=
  (heap_id_of (next_heap_id st),
   mkState (heap st) (next_heap_id st + 1) (capturer_value st)
           (execution_steps st) (stdout_is_capturer st)).

(** [self.heap[heap_id] = entry] *)
Definition heap_store (heap_id : string) (b : heap_body) (ann : option string)
    (st : py_state) : py_state :=
  set_heap (<[heap_id := mkEntry b ann]> (heap st)) st.

(** [isinstance(v, (int, float, bool, str))] *)
Definition is_scalar (v : pyval) : bool :=
  match v with
  | PyInt _ | PyFloat _ | PyBool _ | PyStr _ => true
  | _ => false
  end.

(** [d["value"]] of a descriptor that [process_value] returned for a
    scalar *)
Definition desc_value (d : value_desc) : string :=
  match d with
  | Primitive v => v
  | Reference i => i
  end.

(** [VisualizerState._get_variable_name]: the first variable of a captured
    step that refers to a heap entry tagged with the identity of [obj]. *)
Definition _get_variable_name (st : py_state) (obj_id : N) : option string :=
  let hit (nv : string * value_desc) : bool :=
    match snd nv with
    | Reference i =>
        negb (String.eqb i "") &&
        match heap st !! i with
        | Some (mkEntry (HCounter _ o) _) => N.eqb o obj_id
        | _ => false
        end
    | Primitive _ => false
    end in
  match filter (fun nv => hit nv = true) (concat (map variables (execution_steps st))) with
  | [] => None
  | nv :: _ => Some (fst nv)
  end.

Section Materializer.
Context (rt : runtime).

(** [VisualizerState.process_value] *)
Fixpoint process_value (val : pyval) (st : py_state) : value_desc * py_state :=
  let process_elements :=
    fix go (l : list pyval) (st : py_state) : list value_desc * py_state :=
      match l with
      | [] => ([], st)
      | x :: l' =>
          let '(d, st1) := process_value x st in
          let '(ds, st2) := go l' st1 in
          (d :: ds, st2)
      end in
  match val with
  | PyModule name true =>
      (Primitive ("<module '" +:+ name +:+ "'>"), st)
  | PyInt _ | PyFloat _ | PyBool _ =>
      (Primitive (py_str rt val), st)
  | PyNone =>
      (Primitive "None", st)
  | PyStr s =>
      (Primitive s, st)
  | PyTuple _ elems =>
      let '(heap_id, st1) := get_heap_id st in
      let '(elements, st2) := process_elements elems st1 in
      (Reference heap_id, heap_store heap_id (HList "tuple" elements) None st2)
  | PyList _ elems =>
      let '(heap_id, st1) := get_heap_id st in
      let '(elements, st2) := process_elements elems st1 in
      (Reference heap_id, heap_store heap_id (HList "list" elements) None st2)
  | PyDict _ _ items =>
      let '(heap_id, st1) := get_heap_id st in
      let value :=
        (fix go (l : list (pyval * pyval)) (acc : list (string * string)) :=
           match l with
           | [] => acc
           | (k, v) :: l' =>
               go l' (Dict.set (py_str rt k)
                        (if is_scalar v
                         then desc_value (fst (process_value v st1))
                         else py_str rt v) acc)
           end) items [] in
      (Reference heap_id, heap_store heap_id (HDict value) None st1)
  | PyCallable _ name params =>
      let '(heap_id, st1) := get_heap_id st in
      let signature :=
        match params with
        | Some ps => name +:+ "(" +:+ Str.join ", " ps +:+ ")"
        | None => name
        end in
      (Reference heap_id, heap_store heap_id (HFunction name signature) None st1)
  | PyObject oid cls items iterator pattern =>
      if String.eqb cls "Counter" then
        let '(heap_id, st1) := get_heap_id st in
        let label :=
          match _get_variable_name st1 oid with
          | Some var_name => "Counter for " +:+ var_name
          | None => "Counter object"
          end in
        let value :=
          fold_left (fun acc kv => Dict.set (py_str rt (fst kv)) (py_str rt (snd kv)) acc)
                    items [] in
        (Reference heap_id, heap_store heap_id (HCounter value oid) (Some label) st1)
      else if iterator then
        (Primitive "iterator", st)
      else if String.eqb cls "Pattern" then
        (Primitive ("regex: " +:+ pattern), st)
      else
        (Primitive (py_str rt val), st)
  | PyModule _ false =>
      (Primitive (py_str rt val), st)
  end.

(** [[self.process_value(x) for x in val]], the comprehension of the
    tuple and list cases *)
Fixpoint process_elements (l : list pyval) (st : py_state)
    : list value_desc * py_state :=
  match l with
  | [] => ([], st)
  | x :: l' =>
      let '(d, st1) := process_value x st in
      let '(ds, st2) := process_elements l' st1 in
      (d :: ds, st2)
  end.

End Materializer.

(** A frame object, as far as the instrumentation looks at it.  For the
    frame of module-level code [f_locals] and [f_globals] are the same
    dict and [co_name] is ["<module>"]. *)
Record py_frame : Type := mkFrame {
  co_name : string;
  f_lineno : Z;
  f_locals : list (string * pyval);
  f_globals : list (string * pyval);
}.

(** [frame.f_globals.get('__name__', '')], a string in every frame the
    interpreter builds *)
Definition globals_name (frame : py_frame) : string :=
  match Dict.get "__name__" (f_globals frame) with
  | Some (PyStr s) => s
  | _ => ""
  end.

(** [get_output] *)
Definition get_output (st : py_state) : string := capturer_value st.

Section Capture.
Context (rt : runtime).

(** The loops of [capture_frame]: [process_value] on each binding that
    [keep] lets through, in the order of the dict. *)
Fixpoint capture_variables (keep : string -> bool)
    (items : list (string * pyval)) (vars : list (string * value_desc))
    (st : py_state) : list (string * value_desc) * py_state :=
  match items with
  | [] => (vars, st)
  | (name, val) :: items' =>
      if keep name then
        let '(d, st1) := process_value rt val st in
        capture_variables keep items' (Dict.set name d vars) st1
      else capture_variables keep items' vars st
  end.

Definition keep_global (name : string) : bool :=
  if Str.startswith name "__"
     || Str.mem name ["sys"; "json"; "builtins"; "custom_import";
                      "visualization"; "visualizer"]
     || Str.startswith name "_"
  then false
  else Str.mem name ["Counter"; "winner"; "input"]
       || negb (Str.startswith_any name ["get_"; "set_"; "run_"; "trace_"]).

Definition keep_local (name : string) : bool :=
  negb (Str.startswith name "__" || Str.mem name ["self"; "cls"]).

(** [VisualizerState.capture_frame] *)
Definition capture_frame (frame : py_frame) (st : py_state) : py_step * py_state :=
  let name :=
    if String.eqb (co_name frame) "<module>" then "Global frame"
    else co_name frame in
  let out := get_output st in
  let '(vars, st1) :=
    if String.eqb (co_name frame) "<module>"
    then capture_variables keep_global (f_globals frame) [] st
    else capture_variables keep_local (f_locals frame) [] st in
  (mkStep name vars SharedHeap out (f_lineno frame), st1).

End Capture.

(** ** OUTPUT_AND_TRACING_CODE *)

(** [OutputCapturer.write]: [self.value += text] *)
Definition OutputCapturer_write (text : string) (st : py_state) : py_state :=
  mkState (heap st) (next_heap_id st) (capturer_value st +:+ text)
          (execution_steps st) (stdout_is_capturer st).

(** [sys.stdout.write(text)]: reaches the capturer only while it is bound
    to [sys.stdout]. *)
Definition stdout_write (text : string) (st : py_state) : py_state :=
  if stdout_is_capturer st then OutputCapturer_write text st else st.

(** [filter_system_variables] *)
Definition filter_system_variables {V} (variables_dict : list (string * V))
    : list (string * V) :=
  fold_left
    (fun filtered nv =>
       if negb (Str.startswith (fst nv) "__") &&
          negb (Str.mem (fst nv)
                  ["custom_import"; "real_import"; "unsupported_modules";
                   "builtins"; "json"; "sys"; "to_js"; "visualizer";
                   "execution_steps"; "trace_execution"; "run_with_trace";
                   "create_error_state"; "filter_system_variables"])
       then Dict.set (fst nv) (snd nv) filtered
       else filtered)
    variables_dict [].

(** The events of [sys.settrace]. *)
Inductive trace_event : Type :=
| EvCall | EvLine | EvReturn | EvException | EvOpcode.

Definition is_line (event : trace_event) : bool :=
  match event with EvLine => true | _ => false end.

Section Tracing.
Context (rt : runtime).

(** [trace_execution(frame, event, arg)]; the function it returns is
    always itself. *)
Definition trace_execution (frame : py_frame) (event : trace_event)
    (st : py_state) : py_state :=
  if Str.mem (co_name frame) ["custom_import"; "__import__"]
     || Dict.has "custom_import" (f_locals frame)
     || Str.startswith_any (globals_name frame) ["re"; "collections"; "importlib"]
  then st
  else if is_line event && String.eqb (globals_name frame) "__main__" then
    if (match last (execution_steps st) with
        | Some s => Z.eqb (currentLine s) (f_lineno frame)
        | None => false
        end) && String.eqb (co_name frame) "__main__"
    then st
    else
      let '(state, st1) := capture_frame rt frame st in
      append_step state st1
  else st.

(** The calls of the trace function that the interpreter makes while
    some piece of code runs. *)
Definition run_hooks (hooks : list (py_frame * trace_event)) (st : py_state)
    : py_state :=
  fold_left (fun st h => trace_execution (fst h) (snd h) st) hooks st.

(** [print(text)] writes [text], then the line end.  [between] are the
    trace calls the interpreter makes from the first write to the
    second (the body of [OutputCapturer.write] is traced too). *)
Definition py_print (text : string) (between : list (py_frame * trace_event))
    (st : py_state) : py_state :=
  stdout_write Str.newline (run_hooks between (stdout_write text st)).

End Tracing.

(** The trace calls the interpreter makes while [create_error_state] runs
    (tracing is still on in the [except] clauses of [run_with_trace]):
    up to the first write of [print], between its two writes, and from the
    second write to the [append]. *)
Record handler_hooks : Type := mkHandlerHooks {
  before_print : list (py_frame * trace_event);
  within_print : list (py_frame * trace_event);
  after_print : list (py_frame * trace_event);
}.

Section ErrorState.
Context (rt : runtime).

(** The state that [create_error_state] builds. *)
Definition error_state (full_message : string) : py_step :=
  mkStep "Global frame" [] (OwnHeap ∅) full_message 1.

(** [create_error_state(error_type, error_msg)] *)
Definition create_error_state (error_type error_msg : string)
    (hooks : handler_hooks) (st : py_state) : py_state :=
  let full_message := error_type +:+ ": " +:+ error_msg in
  let st1 := run_hooks rt (before_print hooks) st in
  let st2 := py_print rt full_message (within_print hooks) st1 in
  let st3 := run_hooks rt (after_print hooks) st2 in
  append_step (error_state full_message) st3.

End ErrorState.

(** ** RUN_WITH_TRACE_CODE *)

(** The class of an exception, as the [except] clauses tell them apart.
    [NonException] is a [BaseException] outside [Exception]
    ([SystemExit], [KeyboardInterrupt]). *)
Inductive exn_class : Type :=
| ImportError | KeyError | OtherException | NonException.

Record py_exn : Type := mkExn {
  exn_cls : exn_class;
  (** [str(e)] *)
  exn_str : string;
}.

(** What running the user's code amounts to for the instrumentation, in
    order: calls of the trace function, writes to [sys.stdout], [import]
    statements (calls of [builtins.__import__]) and an exception that the
    user's code raises and does not handle.

    Whether an [import] raises is for [custom_import] and the interpreter
    to say, and the [ImportError] is an exception like any other: a [try]
    statement of the user's code may stand in its way
    ([try: import numpy] with [except ImportError:], or with [finally:]).
    [caught] tells what the program does then: [None] if no [except] or
    [finally] clause of the user's code is in its way, so that it leaves
    [exec] at once; [Some recovery] if one is, and [recovery] is what the
    program goes on to do then (the clause and all that comes after it,
    an exception that leaves the user's code in the end being a [Raise]),
    in place of the actions that follow a successful import.

    The [exception] and [return] events that the interpreter delivers
    while an exception leaves the user's code are no [line] events;
    [trace_execution] does nothing on them, and they are left out after a
    failing [Import] and after a [Raise]. *)
Inductive action : Type :=
| Hook (frame : py_frame) (event : trace_event)
| Write (text : string)
| Import (name : string) (caught : option (list action))
| Raise (e : py_exn).

(** One call [run_with_trace(code)]. *)
Record run : Type := mkRun {
  (** the actions of [exec(code, namespace)], were none of them to fail *)
  user_code : list action;
  (** the trace calls made while [create_error_state] runs *)
  handler : handler_hooks;
  (** [sys._getframe()]: the frame of [run_with_trace] itself *)
  own_frame : py_frame;
}.

Inductive run_result (A : Type) : Type :=
| Returned (steps : list A)
| Propagated (e : py_exn).
Arguments Returned {A} steps.
Arguments Propagated {A} e.

(** One element of the array that [to_js(execution_steps)] hands to
    JavaScript: the step with its heap object spelled out. *)
Record snapshot : Type := mkSnapshot {
  snap_name : option string;
  snap_variables : list (string * value_desc);
  snap_heap : heap_map;
  snap_output : string;
  snap_line : Z;
}.

Section RunWithTrace.
Context (rt : runtime).

(** One action of the user's code, with [rest] for the actions that
    follow it.  An [import] for which [custom_import] raises
    [ImportError] (its own, or that of the interpreter's import) ends
    the user's code if nothing there is in the way of the exception, and
    goes on with the [recovery] of the user's code otherwise. *)
Fixpoint exec_action (a : action)
    (rest : py_state -> py_state * option py_exn) (st : py_state)
    : py_state * option py_exn :=
  match a with
  | Hook frame event => rest (trace_execution rt frame event st)
  | Write text => rest (stdout_write text st)
  | Import name caught =>
      match custom_import rt name with
      | inl msg =>
          match caught with
          | Some recovery =>
              (fix exec (actions : list action) : py_state -> py_state * option py_exn :=
                 match actions with
                 | [] => fun st => (st, None)
                 | a :: rest => exec_action a (exec rest)
                 end) recovery st
          | None => (st, Some (mkExn ImportError msg))
          end
      | inr _ => rest st
      end
  | Raise e => (st, Some e)
  end.

(** [exec(code, namespace)] under [sys.settrace(trace_execution)]: the
    state it leaves and the exception that escapes, if any. *)
Fixpoint exec (actions : list action) : py_state -> py_state * option py_exn :=
  match actions with
  | [] => fun st => (st, None)
  | a :: rest => exec_action a (exec rest)
  end.

(** What one action and those after it write to [sys.stdout], up to the
    first one that fails for good. *)
Fixpoint written_action (a : action) (rest : string) : string :=
  match a with
  | Hook _ _ => rest
  | Write text => text +:+ rest
  | Import name caught =>
      match custom_import rt name with
      | inl _ =>
          match caught with
          | Some recovery =>
              (fix written (actions : list action) : string :=
                 match actions with
                 | [] => ""
                 | a :: rest => written_action a (written rest)
                 end) recovery
          | None => ""
          end
      | inr _ => rest
      end
  | Raise _ => ""
  end.

Fixpoint written (actions : list action) : string :=
  match actions with
  | [] => ""
  | a :: rest => written_action a (written rest)
  end.

(** The heap filter of the post-processing loop: dict entries whose
    keys include [__name__] or [__builtins__] go. *)
Definition is_namespace_dict (obj : heap_entry) : bool :=
  match body obj with
  | HDict value =>
      negb (Nat.eqb (length value) 0) &&
      (Str.mem "__name__" (Dict.keys value)
       || Str.mem "__builtins__" (Dict.keys value))
  | _ => false
  end.

Definition strip_heap (h : heap_map) : heap_map :=
  filter (fun kv => is_namespace_dict (snd kv) = false) h.

(** First post-processing loop, one step: its variables are filtered
    and the heap it points to is stripped in place. *)
Definition strip_one (step : py_step) : py_step :=
  mkStep (frame_name step)
         (match variables step with
          | [] => []
          | vs => filter_system_variables vs
          end)
         (match step_heap step with
          | SharedHeap => SharedHeap
          | OwnHeap h => OwnHeap (strip_heap h)
          end)
         (output step) (currentLine step).

Definition strip_step (acc : heap_map * list py_step) (step : py_step)
    : heap_map * list py_step :=
  (match step_heap step with
   | SharedHeap => strip_heap (fst acc)
   | OwnHeap _ => fst acc
   end,
   snd acc ++ [strip_one step]).

Definition strip_steps (st : py_state) : py_state :=
  let '(shared, steps) := fold_left strip_step (execution_steps st) (heap st, []) in
  set_steps steps (set_heap shared st).

(** [obj.get("type") == "Counter" or (obj.get("value") and
    "Counter" in str(obj.get("value")))] *)
Definition mentions_Counter (obj : heap_entry) : bool :=
  match body obj with
  | HCounter _ _ => true
  | HDict value =>
      negb (Nat.eqb (length value) 0) && Str.includes (dict_str rt value) "Counter"
  | HFunction _ value =>
      negb (String.eqb value "") && Str.includes value "Counter"
  | HList _ _ => false
  end.

Definition annotate_entry (obj : heap_entry) : heap_entry :=
  if mentions_Counter obj
  then mkEntry (body obj) (Some "imported class Counter")
  else obj.

(** Second post-processing loop, one step: the entries of the heap it
    points to get their annotation in place. *)
Definition annotate_one (step : py_step) : py_step :=
  mkStep (frame_name step) (variables step)
         (match step_heap step with
          | SharedHeap => SharedHeap
          | OwnHeap h => OwnHeap (annotate_entry <$> h)
          end)
         (output step) (currentLine step).

Definition annotate_step (acc : heap_map * list py_step) (step : py_step)
    : heap_map * list py_step :=
  (match step_heap step with
   | SharedHeap => annotate_entry <$> fst acc
   | OwnHeap _ => fst acc
   end,
   snd acc ++ [annotate_one step]).

Definition annotate_steps (st : py_state) : py_state :=
  let '(shared, steps) := fold_left annotate_step (execution_steps st) (heap st, []) in
  set_steps steps (set_heap shared st).

Definition set_output (final_output : string) (step : py_step) : py_step :=
  mkStep (frame_name step) (variables step) (step_heap step) final_output
         (currentLine step).

(** [to_js]: each step with the heap it points to. *)
Definition to_js (st : py_state) : list snapshot :=
  map (fun step =>
         mkSnapshot (Some (frame_name step)) (variables step)
           (match step_heap step with
            | SharedHeap => heap st
            | OwnHeap h => h
            end)
           (output step) (currentLine step))
      (execution_steps st).

(** [visualizer.heap = {}], [visualizer.next_heap_id = 1],
    [capturer.value = ""], [execution_steps.clear()] *)
Definition reset_state (st0 : py_state) : py_state :=
  mkState ∅ 1 "" [] (stdout_is_capturer st0).

(** The statements of [run_with_trace] up to [sys.settrace(None)]: the
    reset, [exec] and the [except] clauses.  The exception returned is
    one that none of the clauses catches. *)
Definition capture_phase (r : run) (st0 : py_state) : py_state * option py_exn :=
  match exec (user_code r) (reset_state st0) with
  | (st1, None) => (st1, None)
  | (st1, Some e) =>
      match exn_cls e with
      | ImportError =>
          (create_error_state rt "Error" (exn_str e) (handler r) st1, None)
      | KeyError =>
          (create_error_state rt "KeyError" (exn_str e) (handler r) st1, None)
      | OtherException =>
          (create_error_state rt "Error" (exn_str e) (handler r) st1, None)
      | NonException => (st1, Some e)
      end
  end.

(** The statements of [run_with_trace] after [sys.settrace(None)]. *)
Definition post_process (r : run) (st : py_state) : py_state :=
  let st1 := strip_steps st in
  let st2 :=
    if Nat.eqb (length (execution_steps st1)) 0 then
      let '(state, st') := capture_frame rt (own_frame r) st1 in
      let state' :=
        match variables state with
        | [] => state
        | vs => mkStep (frame_name state) (filter_system_variables vs)
                       (step_heap state) (output state) (currentLine state)
        end in
      append_step state' st'
    else st1 in
  let st3 := annotate_steps st2 in
  let final_output := get_output st3 in
  let st4 := set_steps (map (set_output final_output) (execution_steps st3)) st3 in
  match execution_steps st4 with
  | [only] => append_step only st4
  | _ => st4
  end.

(** The [finally] clause: [sys.stdout = sys.__stdout__]. *)
Definition restore_stdout (st : py_state) : py_state :=
  mkState (heap st) (next_heap_id st) (capturer_value st) (execution_steps st) false.

(** [run_with_trace(code)]: what it returns (or lets through) and the
    interpreter state it leaves.  Nothing in the post-processing raises,
    so the outer [except Exception] clause has no case here. *)
Definition run_with_trace (r : run) (st0 : py_state)
    : run_result snapshot * py_state :=
  match capture_phase r st0 with
  | (st, None) =>
      let st' := post_process r st in
      (Returned (to_js st'), restore_stdout st')
  | (st, Some e) => (Propagated e, restore_stdout st)
  end.

End RunWithTrace.

(** The interpreter state once the four pieces of instrumentation are
    loaded. *)
Definition initial_state : py_state := mkState ∅ 1 "" [] true.

(** ** Relations between interpreter states *)

(** What the materializer may change of the interpreter state: the heap
    and the id counter, which only grows. *)
Definition materializer_step (st st' : py_state) : Prop :=
  execution_steps st' = execution_steps st /\
  capturer_value st' = capturer_value st /\
  stdout_is_capturer st' = stdout_is_capturer st /\
  (next_heap_id st <= next_heap_id st')%N.

(** What calls of the trace function may change: steps are only added at
    the end, the id counter only grows, the captured output stays. *)
Definition capture_step (st st' : py_state) : Prop :=
  (exists added, execution_steps st' = (execution_steps st ++ added)%list) /\
  capturer_value st' = capturer_value st /\
  stdout_is_capturer st' = stdout_is_capturer st /\
  (next_heap_id st <= next_heap_id st')%N.

End Py.

(** * The JavaScript side of [PythonService.js] *)
Module Service.
Import Py.

(** The state of [usePythonStore]. *)
Record store : Type := mkStore {
  isInitialized : bool;
  isRunning : bool;
  error : option string;
  executionSteps : list snapshot;
  currentStepIndex : Z;
  executionState : snapshot;
}.

(** [{ frame: { variables: {} }, heap: {}, output: '', currentLine: 1 }] *)
Definition empty_execution_state : snapshot := mkSnapshot None [] ∅ "" 1.

(** The store as [create] builds it. *)
Definition initial_store : store :=
  mkStore false false None [] 0 empty_execution_state.

(** [setExecutionState(state)] with a state that has all four keys: the
    merge [{ ...prev.executionState, ...state }] is [state]. *)
Definition setExecutionState (state : snapshot) (s : store) : store :=
  mkStore (isInitialized s) (isRunning s) (error s) (executionSteps s)
          (currentStepIndex s) state.

Definition setExecutionSteps (steps : list snapshot) (s : store) : store :=
  mkStore (isInitialized s) (isRunning s) (error s) steps
          (currentStepIndex s) (executionState s).

Definition setError (e : option string) (s : store) : store :=
  mkStore (isInitialized s) (isRunning s) e (executionSteps s)
          (currentStepIndex s) (executionState s).

Definition setIsRunning (b : bool) (s : store) : store :=
  mkStore (isInitialized s) b (error s) (executionSteps s)
          (currentStepIndex s) (executionState s).

(** [{ ...step, output: out }] *)
Definition with_output (step : snapshot) (out : string) : snapshot :=
  mkSnapshot (snap_name step) (snap_variables step) (snap_heap step) out
             (snap_line step).

(** [lastStep?.output || ''] *)
Definition output_of_last (steps : list snapshot) : string :=
  match last steps with
  | Some lastStep => snap_output lastStep
  | None => ""
  end.

(** [setCurrentStepIndex(index)] *)
Definition setCurrentStepIndex (index : Z) (prev : store) : store :=
  if (0 <=? index) && (index <? Z.of_nat (length (executionSteps prev))) then
    match executionSteps prev !! Z.to_nat index with
    | Some currentStep =>
        mkStore (isInitialized prev) (isRunning prev) (error prev)
                (executionSteps prev) index
                (with_output currentStep (output_of_last (executionSteps prev)))
    | None => prev
    end
  else prev.

(** [PythonService.formatListElements]: [element.value =
    String(element.value)] on the primitive elements of every list, whose
    values are strings already. *)
Definition format_element (element : value_desc) : value_desc :=
  match element with
  | Primitive value => Primitive value
  | Reference id => Reference id
  end.

Definition format_entry (obj : heap_entry) : heap_entry :=
  match body obj with
  | HList objectType elements =>
      mkEntry (HList objectType (map format_element elements)) (annotation obj)
  | _ => obj
  end.

Definition formatListElements (steps : list snapshot) : list snapshot :=
  map (fun step =>
         mkSnapshot (snap_name step) (snap_variables step)
                    (format_entry <$> snap_heap step) (snap_output step)
                    (snap_line step))
      steps.

(** [PythonService.resetExecutionState] *)
Definition resetExecutionState (s : store) : store :=
  setCurrentStepIndex 0
    (setExecutionSteps [] (setExecutionState empty_execution_state s)).

(** The filter of [processExecutionSteps]. *)
Definition is_relevant (step : snapshot) : bool :=
  negb (Dict.has "_pyodide_core" (snap_variables step)) &&
  negb (Dict.has "OutputCapturer" (snap_variables step)) &&
  negb (Dict.has "capturer" (snap_variables step)) &&
  negb (Dict.has "trace_execution" (snap_variables step)) &&
  negb (Dict.has "run_with_trace" (snap_variables step)) &&
  negb (bool_decide (snap_name step = Some "write")).

(** [PythonService.processExecutionSteps] *)
Definition processExecutionSteps (steps : list snapshot) (s : store) : store :=
  let relevantSteps := List.filter is_relevant steps in
  if Nat.ltb 0 (length relevantSteps) then
    let relevantSteps := formatListElements relevantSteps in
    setExecutionState
      (with_output (List.hd empty_execution_state relevantSteps)
                   (output_of_last steps))
      (setExecutionSteps relevantSteps s)
  else s.

Section RunCode.
Context (rt : runtime).
(** the [message] of the JavaScript error that a Python exception
    leaving [run_with_trace] turns into *)
Context (error_message : py_exn -> string).

(** [PythonService.runCode], with Pyodide loaded: the store and the
    interpreter state it leaves. *)
Definition runCode (r : run) (s : store) (st : py_state) : store * py_state :=
  let s1 := resetExecutionState (setError None (setIsRunning true s)) in
  match run_with_trace rt r st with
  | (Returned steps, st') =>
      let s2 :=
        if Nat.ltb 0 (length steps) then processExecutionSteps steps s1
        else s1 in
      (setIsRunning false s2, st')
  | (Propagated e, st') =>
      (setIsRunning false (setError (Some (error_message e)) s1), st')
  end.

End RunCode.

End Service.

(** * [visualization/config.js] *)

(** A JavaScript number in the layout arithmetic: a rational, or [NaN]
    ([None]).  Rounding of floating point is not modelled. *)
Module Num.
Definition num : Type := option Q.

Definition NaN : num := None.
Definition of_Z (z : Z) : num := Some (inject_Z z).
Definition of_nat (n : nat) : num := of_Z (Z.of_nat n).
Definition frac (a : Z) (b : positive) : num := Some (Qmake a b).

Definition lift2 (f : Q -> Q -> Q) (a b : num) : num :=
  match a, b with
  | Some x, Some y => Some (Qred (f x y))
  | _, _ => None
  end.

Definition add : num -> num -> num := lift2 Qplus.
Definition sub : num -> num -> num := lift2 Qminus.
Definition mul : num -> num -> num := lift2 Qmult.
(** [Math.max] *)
Definition max : num -> num -> num :=
  lift2 (fun x y => if Qle_bool x y then y else x).
(** [Math.min] *)
Definition min : num -> num -> num :=
  lift2 (fun x y => if Qle_bool x y then x else y).

  (** Equality of the two numbers written out as attribute values. *)
Definition eqb (a b : num) : bool :=
  match a, b with
  | Some x, Some y => Qeq_bool x y
  | None, None => true
  | _, _ => false
  end.
End Num.

Declare Scope num_scope.
Delimit Scope num_scope with num.
Bind Scope num_scope with Num.num.
Infix "+" := Num.add : num_scope.
Infix "-" := Num.sub : num_scope.
Infix "*" := Num.mul : num_scope.
Notation "# z" := (Num.of_Z z) (at level 5, z at level 0, format "# z") : num_scope.

Module Config.
Import Num.
Local Open Scope num_scope.

Module LAYOUT.
Definition frame_lineHeight : num := #30.
Definition frame_width : num := #220.
Definition object_startX : num := #380.
Definition object_verticalGap : num := #90.
Definition object_horizontalOffset : num := #250.
Definition object_cell_size : num := #100.
Definition object_cell_height : num := #35.
Definition margin_top : num := #15.
Definition margin_bottom : num := #30.
Definition margin_left : num := #40.
Definition referenceIndicator_verticalOffset : num := #10.
Definition referenceIndicator_width : num := #300.
End LAYOUT.

Module OBJECT_TYPES.
Definition dict_minWidth : num := #370.
End OBJECT_TYPES.

Module DEFAULTS.
Definition svgSize_width : num := #900.
Definition svgSize_height : num := #500.
Definition frameDefaultHeight : num := #70.
End DEFAULTS.

(** [utils.calculateFrameHeight] *)
Definition calculateFrameHeight (variableCount : nat) : num :=
  let minHeight := DEFAULTS.frameDefaultHeight in
  let contentHeight := #40 + of_nat variableCount * LAYOUT.frame_lineHeight in
  max minHeight contentHeight.

(** [utils.calculateHeapObjectPosition] *)
Definition calculateHeapObjectPosition (index : nat) (type : string) : num * num :=
  if String.eqb type "list" then
    let parentIndex := Nat.div index 10 in
    let isChildList := negb (Nat.eqb (Nat.modulo index 10) 0) in
    if isChildList then
      (LAYOUT.object_startX + #220,
       LAYOUT.margin_top + #60 + of_nat index * LAYOUT.object_verticalGap * frac 1 2)
    else
      (LAYOUT.object_startX,
       LAYOUT.margin_top + #60 + of_nat parentIndex * LAYOUT.object_verticalGap)
  else if String.eqb type "dict" then
    (LAYOUT.object_startX,
     LAYOUT.margin_top + #60 + of_nat index * LAYOUT.object_verticalGap)
  else
    (LAYOUT.object_startX + #100,
     LAYOUT.margin_top + #60 + of_nat index * LAYOUT.object_verticalGap * frac 1 2).

End Config.

(** * [components/PythonTutorViz.jsx] *)
Module Viz.
Import Py Service Num Config.
Local Open Scope num_scope.

(** What the component appends to the SVG.  Colours, fonts and class
    names of texts and boxes are left out; a connector keeps the
    arguments of [drawConnector] in place of its path data. *)
Inductive svg_node : Type :=
| SvgText (x y : num) (text : string)
| SvgRect (x y width height : num) (dashed : bool)
| SvgLine (x1 y1 x2 y2 : num)
| SvgPath (source target : num * num) (isFrame : bool) (level : nat)
| SvgGroup (cls : string) (dx dy : num) (children : list svg_node)
| SvgDefs.

Definition createText (x y : num) (text : string) : svg_node := SvgText x y text.
Definition createRect (x y width height : num) : svg_node :=
  SvgRect x y width height false.
Definition createLine (x1 y1 x2 y2 : num) : svg_node := SvgLine x1 y1 x2 y2.

(** [s.length] as a number *)
Definition len (s : string) : num := of_nat (String.length s).

(** [drawFunction] *)
Definition drawFunction (valueText : string) (x y : num) : list svg_node :=
  let textWidth := len valueText * #8 + #20 in
  let bgHeight := #24 in
  [createRect (x - #5) (y - #5) textWidth bgHeight;
   createText x (y + #10) valueText;
   createRect (x - #5) (y - #5) textWidth bgHeight].

(** [drawDict] *)
Definition drawDict (data : list (string * string)) (x y : num)
    (subtype : option string) : list svg_node :=
  let BOX_HEIGHT := LAYOUT.object_cell_height in
  let BOX_PADDING := #10 in
  let isCounter := bool_decide (subtype = Some "Counter") in
  let labelText := if isCounter then "Counter instance" else "dict" in
  let dictContentStr :=
    Str.join ", "
      (map (fun kv => "'" +:+ fst kv +:+ "': '" +:+ snd kv +:+ "'") data) in
  let fullString :=
    if isCounter then "Counter({" +:+ dictContentStr +:+ "})"
    else "{" +:+ dictContentStr +:+ "}" in
  let approxCharWidth := frac 77 10 in
  let estimatedTextWidth := len fullString * approxCharWidth in
  let boxWidth :=
    max OBJECT_TYPES.dict_minWidth (estimatedTextWidth + #2 * BOX_PADDING) in
  [createText x (y - #12) labelText;
   createRect x y boxWidth BOX_HEIGHT;
   createText (x + BOX_PADDING) (y + BOX_HEIGHT * frac 1 2 + #5) fullString].

(** [drawConnector] *)
Definition drawConnector (source target : num * num) (isFrame : bool)
    (level : nat) : list svg_node :=
  [SvgPath source target isFrame level].

(** [elements.forEach((element, i) => ...)] for a body that may run out
    of nesting budget. *)
Fixpoint forEach {A} (f : A -> nat -> option (list svg_node)) (i : nat)
    (l : list A) : option (list svg_node) :=
  match l with
  | [] => Some []
  | a :: l' =>
      match f a i with
      | Some nodes =>
          match forEach f (S i) l' with
          | Some rest => Some (nodes ++ rest)%list
          | None => None
          end
      | None => None
      end
  end.

Section ListDrawing.
Context (heap : heap_map).
(** the call [drawList(g, elements, x, y, heap, level)] *)
Context (drawList_call :
           list value_desc -> num -> num -> nat -> option (list svg_node)).

(** [renderReferenceElement] *)
Definition renderReferenceElement (element_id : string)
    (cellX cellSize y cellHeight : num) (index level : nat) (parentX : num)
    : option (list svg_node) :=
  match heap !! element_id with
  | None => Some []
  | Some heapObj =>
      let indicator :=
        match body heapObj with
        | HList _ _ => "[]"
        | HDict _ => "{}"
        | HFunction _ _ => "fn"
        | HCounter _ _ => "?"
        end in
      let box :=
        [createRect (cellX + cellSize * frac 1 2 - #12)
                    (y + cellHeight * frac 1 2 - #10) #24 #20;
         createText (cellX + cellSize * frac 1 2)
                    (y + cellHeight * frac 1 2 + #5) indicator] in
      let elements_length :=
        match body heapObj with
        | HList _ elements => of_nat (length elements)
        | _ => NaN
        end in
      let baseHorizontalPos :=
        parentX + elements_length * cellSize + LAYOUT.object_horizontalOffset in
      let refX := baseHorizontalPos in
      let refY := y + of_nat index * LAYOUT.object_verticalGap in
      if Nat.ltb level 3 then
        match body heapObj with
        | HList _ elements =>
            match drawList_call elements refX refY (level + 1)%nat with
            | Some nodes =>
                Some (box ++ nodes ++
                      drawConnector
                        (cellX + cellSize * frac 1 2, y + cellHeight * frac 1 2)
                        (refX, refY) false index)%list
            | None => None
            end
        | HDict value =>
            Some (box ++ drawDict value refX refY None ++
                  drawConnector
                    (cellX + cellSize * frac 1 2, y + cellHeight * frac 1 2)
                    (refX + OBJECT_TYPES.dict_minWidth * frac 1 2, refY)
                    false index)%list
        | _ => Some box
        end
      else Some box
  end.

(** [renderListElement] *)
Definition renderListElement (element : value_desc)
    (cellX cellSize y cellHeight : num) (index level : nat) (parentX : num)
    : option (list svg_node) :=
  match element with
  | Primitive value =>
      let valueStr := Str.dquote +:+ value +:+ Str.dquote in
      Some [createText (cellX + cellSize * frac 1 2)
                       (y + cellHeight * frac 1 2 + #5) valueStr]
  | Reference id =>
      if negb (String.eqb id "") && bool_decide (is_Some (heap !! id))
      then renderReferenceElement id cellX cellSize y cellHeight index level parentX
      else Some []
  end.

(** The body of [drawList]. *)
Definition drawList_body (elements : list value_desc) (x y : num) (level : nat)
    : option (list svg_node) :=
  let cellSize := LAYOUT.object_cell_size in
  let cellHeight := LAYOUT.object_cell_height in
  match
    forEach
      (fun element i =>
         let cellX := x + of_nat i * cellSize in
         match renderListElement element cellX cellSize y cellHeight i level x with
         | Some nodes =>
             Some ([createRect cellX y cellSize cellHeight] ++
                   (if Nat.ltb i (length elements - 1)
                    then [createLine (cellX + cellSize) y (cellX + cellSize)
                                     (y + cellHeight)]
                    else []) ++
                   [createText (cellX + cellSize * frac 1 2) (y - #2) (pretty i)] ++
                   nodes)%list
         | None => None
         end)
      0%nat elements
  with
  | Some cells => Some (createText x (y - #12) "list" :: cells)
  | None => None
  end.

End ListDrawing.

(** [drawList(g, elements, x, y, heap, level)].  [budget] bounds how many
    calls of [drawList] may be open at once; [None] means the bound was
    hit. *)
Fixpoint drawList (budget : nat) (heap : heap_map) (elements : list value_desc)
    (x y : num) (level : nat) : option (list svg_node) :=
  match budget with
  | O => None
  | S budget' =>
      drawList_body heap (fun els x' y' lvl => drawList budget' heap els x' y' lvl)
                    elements x y level
  end.

(** The nesting budget with which the component is run. *)
Definition draw_budget : nat := 4.

(** A frame as [drawCallStack] receives it. *)
Record frame_info : Type := mkFrameInfo {
  fi_name : string;
  fi_variables : list (string * value_desc);
  is_highlighted : bool;
  fi_output : option string;
  originalVariables : option (list (string * value_desc));
}.

(** The [executionState] that the component reads from the store; the
    store itself never sets [frames]. *)
Record execution_state : Type := mkExecutionState {
  frames : option (list frame_info);
  frame : option (option string * list (string * value_desc));
  es_heap : heap_map;
  es_output : string;
  es_currentLine : Z;
}.

Definition of_snapshot (s : snapshot) : execution_state :=
  mkExecutionState None (Some (snap_name s, snap_variables s)) (snap_heap s)
                   (snap_output s) (snap_line s).

(** [g.select('rect[x=...][y=...]')]: width and height of the first
    rectangle, in document order, with these [x] and [y]. *)
Fixpoint select_rect (x y : num) (node : svg_node) : option (num * num) :=
  match node with
  | SvgRect x' y' width height _ =>
      if eqb x x' && eqb y y' then Some (width, height) else None
  | SvgGroup _ _ _ children =>
      (fix first (l : list svg_node) : option (num * num) :=
         match l with
         | [] => None
         | c :: l' =>
             match select_rect x y c with
             | Some r => Some r
             | None => first l'
             end
         end) children
  | _ => None
  end.

(** [addCounterHighlighting], with the content [dom] of [g] at the call *)
Definition addCounterHighlighting (dom : list svg_node) (obj : heap_entry)
    (pos : num * num) : list svg_node :=
  let label :=
    match annotation obj with
    | Some a => if String.eqb a "" then [] else [createText (fst pos) (snd pos - #24) a]
    | None => []
    end in
  match select_rect (fst pos) (snd pos) (SvgGroup "" #0 #0 (dom ++ label)) with
  | Some (width, height) =>
      (label ++ [SvgRect (fst pos - #2) (snd pos - #2) (width + #4) (height + #4) true])%list
  | None => label
  end.

(** [renderHeapObject], with the content [dom] of [g] at the call *)
Definition renderHeapObject (dom : list svg_node) (obj : heap_entry)
    (pos : num * num) (heap : heap_map) : option (list svg_node) :=
  match body obj with
  | HFunction _ value => Some (drawFunction value (fst pos) (snd pos))
  | HList _ elements => drawList draw_budget heap elements (fst pos) (snd pos) 0
  | HDict value => Some (drawDict value (fst pos) (snd pos) None)
  | HCounter value _ =>
      let box := drawDict value (fst pos) (snd pos) (Some "Counter") in
      Some (box ++ addCounterHighlighting (dom ++ box) obj pos)%list
  end.

(** [getRefIndicatorText] *)
Definition getRefIndicatorText (type : string) : string :=
  if String.eqb type "list" then "[]"
  else if String.eqb type "dict" then "{}"
  else if String.eqb type "function" then "fn"
  else "?".

(** [calculateFrameWidth]: [(totalWidth, leftColumnWidth)] *)
Definition calculateFrameWidth (variables : list (string * value_desc)) : num * num :=
  let baseWidth := LAYOUT.frame_width in
  let baseLeftWidth := baseWidth * frac 4 10 in
  let maxNameLength :=
    fold_left (fun m nv => Nat.max m (String.length (fst nv))) variables 0%nat in
  let maxValueLength :=
    fold_left (fun m nv =>
                 match snd nv with
                 | Primitive value => Nat.max m (String.length value)
                 | Reference _ => m
                 end) variables 0%nat in
  let leftAdjustment :=
    if Nat.ltb 8 maxNameLength then of_nat ((maxNameLength - 8) * 8) else #0 in
  let rightAdjustment :=
    if Nat.ltb 10 maxValueLength then of_nat ((maxValueLength - 10) * 10) else #0 in
  (baseWidth + leftAdjustment + rightAdjustment, baseLeftWidth + leftAdjustment).

(** [drawFrameGrid] *)
Definition drawFrameGrid (variables : list (string * value_desc))
    (width height leftColumnWidth : num) : list svg_node :=
  let cellHeight := LAYOUT.frame_lineHeight in
  let varCount := length variables in
  (map (fun i => createLine #0 (of_nat i * cellHeight + #35) width
                            (of_nat i * cellHeight + #35))
       (seq 1 varCount)
   ++ [createLine leftColumnWidth #35 leftColumnWidth height])%list.

(** [renderPrimitiveVariable] *)
Definition renderPrimitiveVariable (value : string) (leftColumnWidth y : num)
    : list svg_node :=
  let valueText := if String.eqb value "" then Str.dquote +:+ Str.dquote else value in
  let valueWidth := len valueText * #8 + #10 in
  [createRect (leftColumnWidth + #10) y valueWidth #24;
   createText (leftColumnWidth + #15) (y + #16) valueText].

(** The nodes of one frame while it is drawn: the children of its group
    and what was appended to [g] after the group. *)
Record frame_nodes : Type := mkFrameNodes {
  in_frame : list svg_node;
  in_g : list svg_node;
}.

Section Frame.
Context (heap : heap_map).
(** the children of [g] before the group of this frame, and the
    vertical offset of the group *)
Context (before : list svg_node) (currentY : num).

Definition dom_of (fn : frame_nodes) : list svg_node :=
  (before ++ [SvgGroup "frame" #0 currentY (in_frame fn)] ++ in_g fn)%list.

(** [renderReferenceVariable] *)
Definition renderReferenceVariable (obj : heap_entry) (leftColumnWidth y : num)
    (index : nat) (fn : frame_nodes) : option frame_nodes :=
  let heapPos := calculateHeapObjectPosition index (entry_type obj) in
  let refText := getRefIndicatorText (entry_type obj) in
  let fn1 :=
    mkFrameNodes
      (in_frame fn ++
       [createRect (leftColumnWidth + #10) (y + #2) #30 #20;
        createText (leftColumnWidth + #25) (y + #16) refText])
      (in_g fn) in
  match renderHeapObject (dom_of fn1) obj heapPos heap with
  | Some nodes =>
      Some (mkFrameNodes (in_frame fn1)
              (in_g fn1 ++ nodes ++
               drawConnector (leftColumnWidth + #25, y + #22)
                             (fst heapPos, snd heapPos + #10) true 0))
  | None => None
  end.

(** [renderVariable] *)
Definition renderVariable (name : string) (data : value_desc)
    (leftColumnWidth : num) (index : nat) (fn : frame_nodes)
    : option frame_nodes :=
  let y := #45 + of_nat index * LAYOUT.frame_lineHeight in
  let fn1 :=
    mkFrameNodes (in_frame fn ++ [createText #15 (y + #12) name]) (in_g fn) in
  match data with
  | Primitive value =>
      Some (mkFrameNodes
              (in_frame fn1 ++ renderPrimitiveVariable value leftColumnWidth y)
              (in_g fn1))
  | Reference id =>
      match heap !! id with
      | Some obj => renderReferenceVariable obj leftColumnWidth y index fn1
      | None => Some fn1
      end
  end.

(** [Object.entries(variables).forEach(([name, data], i) => ...)] *)
Fixpoint renderVariables (variables : list (string * value_desc))
    (leftColumnWidth : num) (i : nat) (fn : frame_nodes) : option frame_nodes :=
  match variables with
  | [] => Some fn
  | (name, data) :: rest =>
      match renderVariable name data leftColumnWidth i fn with
      | Some fn1 => renderVariables rest leftColumnWidth (S i) fn1
      | None => None
      end
  end.

End Frame.

(** [renderErrorMessage]: the nodes and the new [currentY] *)
Definition renderErrorMessage (frameInfo : frame_info) (currentY : num)
    : list svg_node * num :=
  let errorWidth := #600 in
  let errorHeight := #80 in
  let errorY := currentY + #20 in
  let fallback := "An error occurred" in
  let errorMsg :=
    match Dict.get "error_msg" (fi_variables frameInfo) with
    | Some (Primitive value) => if String.eqb value "" then fallback else value
    | Some (Reference _) => fallback
    | None =>
        match fi_output frameInfo with
        | Some out =>
            if String.eqb out "" then ""
            else match Str.after_first out "Error:" with
                 | Some rest => Str.trim (Str.line_prefix rest)
                 | None => fallback
                 end
        | None => ""
        end
    end in
  ([createRect #0 errorY errorWidth errorHeight;
    createText #20 (errorY + #30) "Import Error:";
    createText #20 (errorY + #60) errorMsg],
   errorY + errorHeight + #30).

(** [collectListInfo]: name and size of the lists that variables refer
    to, the first entry of each name *)
Definition collectListInfo (frames : list frame_info) (heap : heap_map)
    : list (string * nat) :=
  let listInfo :=
    flat_map
      (fun frame =>
         if String.eqb (fi_name frame) "Error Frame" then []
         else
           flat_map
             (fun nv =>
                match snd nv with
                | Reference id =>
                    match body <$> heap !! id with
                    | Some (HList _ elements) => [(fst nv, length elements)]
                    | _ => []
                    end
                | Primitive _ => []
                end)
             (fi_variables frame))
      frames in
  fold_left
    (fun acc info =>
       if Str.mem (fst info) (map fst acc) then acc else (acc ++ [info])%list)
    listInfo [].

(** [addInformationalElements]: the nodes and the new [currentY] *)
Definition addInformationalElements (listInfo : list (string * nat))
    (currentY totalWidth : num) : list svg_node * num :=
  let infoText :=
    Str.join " | "
      (map (fun info => fst info +:+ " size: " +:+ pretty (snd info)) listInfo) in
  let infoY := currentY in
  let infoHeight := #24 in
  let textWidth := len infoText * frac 55 10 in
  let infoWidth := max (textWidth + #40) (totalWidth * frac 8 10) in
  let currentY := currentY + infoHeight + #20 in
  let indicatorY := currentY + LAYOUT.referenceIndicator_verticalOffset in
  let indicatorHeight := #84 in
  let indicatorWidth := LAYOUT.referenceIndicator_width in
  ([createRect #0 infoY infoWidth infoHeight;
    createText #10 (infoY + #16) infoText;
    createRect #0 indicatorY indicatorWidth indicatorHeight;
    createText #12 (indicatorY + #20) "Visual Indicators for References:";
    createText #24 (indicatorY + #44) "• [] - Represents a reference to a nested list";
    createText #24 (indicatorY + #64) "• {} - Represents a reference to a dictionary";
    createText #24 (indicatorY + #84) "• fn - Represents a reference to a function"],
   indicatorY + indicatorHeight + #30).

(** [updateSvgDimensions]: the height it sets *)
Definition updateSvgDimensions (currentY : num) : num :=
  max DEFAULTS.svgSize_height
      (currentY + LAYOUT.margin_top + LAYOUT.margin_bottom + #50).

(** [.includes] of each of the given texts *)
Definition includes_any (s : string) (subs : list string) : bool :=
  existsb (Str.includes s) subs.

(** The callback of [frames.forEach] in [drawCallStack]: one frame, on a
    group with children [g] and from the offset [currentY]. *)
Definition drawFrame (hasError : bool) (listInfo : list (string * nat))
    (heap : heap_map) (g : list svg_node) (currentY : num)
    (frameInfo : frame_info) (frameIndex : nat) : option (list svg_node * num) :=
  if hasError && String.eqb (fi_name frameInfo) "Global frame" &&
     existsb (fun key => Str.mem key ["error_type"; "error_msg"; "full_message"])
             (Dict.keys (fi_variables frameInfo))
  then
    if Nat.eqb frameIndex 0 then
      let '(nodes, y') := renderErrorMessage frameInfo currentY in
      Some (g ++ nodes, y')
    else Some (g, currentY)
  else
    let variables :=
      if Dict.has "size" (fi_variables frameInfo) &&
         negb (match originalVariables frameInfo with
               | Some ov => Dict.has "size" ov
               | None => false
               end)
      then List.filter (fun nv => negb (String.eqb (fst nv) "size"))
                       (fi_variables frameInfo)
      else fi_variables frameInfo in
    let varCount := length variables in
    let frameHeight := calculateFrameHeight varCount in
    let '(totalWidth, leftColumnWidth) := calculateFrameWidth variables in
    let fn0 :=
      mkFrameNodes
        ([createRect #0 #0 totalWidth frameHeight] ++
         drawFrameGrid variables totalWidth frameHeight leftColumnWidth ++
         [createRect #0 #0 totalWidth #35;
          createText #12 #24 (fi_name frameInfo)])
        [] in
    match renderVariables heap g currentY variables leftColumnWidth 0 fn0 with
    | None => None
    | Some fn =>
        let g1 := dom_of g currentY fn in
        let currentY := currentY + frameHeight + #30 in
        if String.eqb (fi_name frameInfo) "Global frame" &&
           Nat.ltb 0 (length listInfo)
        then
          let '(nodes, y') := addInformationalElements listInfo currentY totalWidth in
          Some (g1 ++ nodes, y')
        else Some (g1, currentY)
    end.

(** [drawCallStack(g, frames, heap)] on a group [g] with children [g0]:
    the children of [g] afterwards and the height given to the SVG. *)
Definition drawCallStack (g0 : list svg_node) (frames : list frame_info)
    (heap : heap_map) : option (list svg_node * num) :=
  let hasError :=
    existsb (fun frame =>
               match fi_output frame with
               | Some out => includes_any out ["Error:"; "not found"; "not supported"]
               | None => false
               end) frames in
  let listInfo := collectListInfo frames heap in
  match
    fold_left
      (fun acc fi =>
         match acc with
         | Some (g, currentY) =>
             drawFrame hasError listInfo heap g currentY (fst fi) (snd fi)
         | None => None
         end)
      (combine frames (seq 0 (length frames))) (Some (g0, #0))
  with
  | Some (g, currentY) => Some (g, updateSvgDimensions currentY)
  | None => None
  end.

(** [detectImportError] *)
Definition detectImportError (executionState : execution_state) : bool :=
  if negb (String.eqb (es_output executionState) "") &&
     (Str.includes (es_output executionState) "not found or not supported"
      || Str.includes (es_output executionState) "ImportError")
  then true
  else
    match frames executionState with
    | Some fs =>
        existsb
          (fun frame =>
             Dict.has "error_type" (fi_variables frame)
             || match fi_output frame with
                | Some out =>
                    negb (String.eqb out "") &&
                    (Str.includes out "not found or not supported"
                     || Str.includes out "ImportError")
                | None => false
                end)
          fs
    | None =>
        match frame executionState with
        | Some (_, variables) => Str.mem "error_type" (Dict.keys variables)
        | None => false
        end
    end.

(** [renderImportErrorMessage(svg)]: the group it appends *)
Definition renderImportErrorMessage (clientWidth : num) : svg_node :=
  let width := min #600 (clientWidth - #80) in
  let height := #150 in
  let iconSize := #40 in
  let iconX := #30 in
  let iconY := #30 in
  SvgGroup "" LAYOUT.margin_left (LAYOUT.margin_top + #50)
    ([createRect #0 #0 width height;
      createRect iconX iconY iconSize iconSize;
      createText (iconX + iconSize + #20) (iconY + #15) "Import Error"] ++
     map (fun msg_idx : string * nat =>
            createText #30 (iconY + #60 + of_nat (snd msg_idx) * #22) (fst msg_idx))
         [("This code contains imports that aren't supported in the browser environment.", 0%nat);
          ("Module 'requests' cannot be imported in this Python Tutor visualization.", 1%nat);
          ("Try modifying the code to use built-in modules only.", 2%nat)])%list.

(** What one run of the rendering effect leaves in the SVG element. *)
Record rendering : Type := mkRendering {
  (** the children of the SVG element *)
  svg : list svg_node;
  (** the height set on it, if one was *)
  svg_height : option num;
  (** whether [animateStateTransition] ran *)
  animated : bool;
}.

Definition import_error_text : string :=
  "This code contains imports that aren't supported in the browser environment. Try modifying the code to use built-in modules only.".

(** The effect of the component ([useEffect(..., [executionState])]) with
    the SVG element mounted and [clientWidth] wide: the store, the state
    kept in [prevExecutionStateRef] and the rendering it leaves.  [None]
    only if drawing ran out of nesting budget. *)
Definition render_effect (clientWidth : num) (executionState : execution_state)
    (prevState : option execution_state) (s : store)
    : option (store * option execution_state * rendering) :=
  let hasImportError := detectImportError executionState in
  let s1 :=
    if hasImportError
    then setExecutionSteps [] (setError (Some import_error_text) s)
    else s in
  if hasImportError then
    Some (s1, prevState,
          mkRendering [renderImportErrorMessage clientWidth] (Some (#150 + #100)) false)
  else
    let g0 := [SvgDefs; createText LAYOUT.object_startX #30 "Objects"] in
    let drawn :=
      match frames executionState with
      | Some fs =>
          match drawCallStack g0 fs (es_heap executionState) with
          | Some (g, h) => Some (g, Some h)
          | None => None
          end
      | None =>
          match frame executionState with
          | Some (name, variables) =>
              let name' :=
                match name with
                | Some n => if String.eqb n "" then "Global frame" else n
                | None => "Global frame"
                end in
              match drawCallStack g0 [mkFrameInfo name' variables true None None]
                                  (es_heap executionState) with
              | Some (g, h) => Some (g, Some h)
              | None => None
              end
          | None => Some (g0, None)
          end
      end in
    match drawn with
    | Some (g, h) =>
        Some (s1, Some executionState,
              mkRendering [SvgGroup "" LAYOUT.margin_left LAYOUT.margin_top g] h
                          (match prevState with Some _ => true | None => false end))
    | None => None
    end.

End Viz.

(** * Concrete runs

    What the interpreter does on a few small programs, written out as
    [run] records, with a stand-in for its [str] and [__import__]. *)
Module Scenario.
Import Py.

(** [str(v)] ([quoted = false]) and [repr(v)] ([quoted = true]) as CPython
    prints [None], booleans, integers and strings without quotes or
    escapes, and lists, tuples of two or more and dicts of those. *)
Fixpoint render (quoted : bool) (v : pyval) : string :=
  match v with
  | PyNone => "None"
  | PyBool b => if b then "True" else "False"
  | PyInt z => pretty z
  | PyFloat literal => literal
  | PyStr s => if quoted then "'" +:+ s +:+ "'" else s
  | PyTuple _ elems => "(" +:+ Str.join ", " (map (render true) elems) +:+ ")"
  | PyList _ elems => "[" +:+ Str.join ", " (map (render true) elems) +:+ "]"
  | PyDict _ cls items =>
      let inner :=
        "{" +:+
        Str.join ", "
          ((fix go (l : list (pyval * pyval)) : list string :=
              match l with
              | [] => []
              | (k, x) :: l' => (render true k +:+ ": " +:+ render true x) :: go l'
              end) items) +:+ "}" in
      if String.eqb cls "dict" then inner else cls +:+ "(" +:+ inner +:+ ")"
  | PyCallable _ name _ => "<function " +:+ name +:+ ">"
  | PyModule name _ => "<module '" +:+ name +:+ "'>"
  | PyObject _ cls _ _ _ => "<" +:+ cls +:+ " object>"
  end.

(** The modules that the instrumentation itself imports while
    [custom_import] is installed ([builtins], [js]), and a few of the
    standard library. *)
Definition present_modules : list string :=
  ["builtins"; "js"; "sys"; "os"; "json"; "collections"; "math"; "re"].

Definition cpython : runtime := {|
  py_str := render false;
  (* every name that the scenarios import is made of ASCII characters *)
  py_lower := Str.lower;
  dict_str := fun d =>
    "{" +:+
    Str.join ", " (map (fun kv => "'" +:+ fst kv +:+ "': '" +:+ snd kv +:+ "'") d)
    +:+ "}";
  real_import := fun name =>
    if Str.mem name present_modules then inr (PyModule name false)
    else inl ("No module named '" +:+ name +:+ "'");
|}.

(** The namespace that [exec(code, namespace)] runs in, with the user's
    bindings so far. *)
Definition namespace (vars : list (string * pyval)) : list (string * pyval) :=
  [("__name__", PyStr "__main__"); ("__builtins__", PyDict 1 "dict" [])] ++ vars.

(** The frame of the user's module-level code at [line]. *)
Definition module_frame (line : Z) (vars : list (string * pyval)) : py_frame :=
  mkFrame "<module>" line (namespace vars) (namespace vars).

(** The globals of the instrumentation: the namespace of Pyodide's
    [__main__]. *)
Definition instrumentation_globals : list (string * pyval) :=
  [("__name__", PyStr "__main__");
   ("sys", PyModule "sys" false);
   ("json", PyModule "json" true);
   ("capturer", PyObject 2 "OutputCapturer" [] false "")].

(** The frame of [OutputCapturer.write(text)] at a line of
    OUTPUT_AND_TRACING_CODE. *)
Definition write_frame (line : Z) (text : string) : py_frame :=
  mkFrame "write" line
    [("self", PyObject 2 "OutputCapturer" [] false ""); ("text", PyStr text)]
    instrumentation_globals.

(** One call [sys.stdout.write(text)] under tracing. *)
Definition write_call (text : string) : list action :=
  [Hook (write_frame 6 text) EvCall;
   Hook (write_frame 7 text) EvLine;
   Write text;
   Hook (write_frame 8 text) EvLine;
   Hook (write_frame 8 text) EvReturn].

(** [print(text)] in the user's code. *)
Definition print_call (text : string) : list action :=
  write_call text ++ write_call Str.newline.

(** The frame of [create_error_state] at a line of
    OUTPUT_AND_TRACING_CODE. *)
Definition error_frame (line : Z) (error_type error_msg : string)
    (more : list (string * pyval)) : py_frame :=
  mkFrame "create_error_state" line
    ([("error_type", PyStr error_type); ("error_msg", PyStr error_msg)] ++ more)
    instrumentation_globals.

(** The trace calls while [create_error_state(error_type, error_msg)]
    runs. *)
Definition error_hooks (error_type error_msg : string) : handler_hooks :=
  let full_message := error_type +:+ ": " +:+ error_msg in
  let fm := [("full_message", PyStr full_message)] in
  mkHandlerHooks
    [(error_frame 19 error_type error_msg [], EvCall);
     (error_frame 21 error_type error_msg [], EvLine);
     (error_frame 22 error_type error_msg fm, EvLine);
     (write_frame 6 full_message, EvCall);
     (write_frame 7 full_message, EvLine)]
    [(write_frame 8 full_message, EvLine);
     (write_frame 8 full_message, EvReturn);
     (write_frame 6 Str.newline, EvCall);
     (write_frame 7 Str.newline, EvLine)]
    [(write_frame 8 Str.newline, EvLine);
     (write_frame 8 Str.newline, EvReturn);
     (error_frame 23 error_type error_msg fm, EvLine);
     (error_frame 29 error_type error_msg fm, EvLine)].

Definition no_hooks : handler_hooks := mkHandlerHooks [] [] [].

(** The frame of [run_with_trace] itself. *)
Definition own (code : string) : py_frame :=
  mkFrame "run_with_trace" 48
    [("code", PyStr code); ("namespace", PyDict 3 "dict" [])]
    instrumentation_globals.



(** [print("hi")] *)
Definition print_run : run :=
  mkRun (Hook (module_frame 1 []) EvLine :: print_call "hi")
        no_hooks (own "print(hi)").

(** [for i in range(2): pass] on one line: the line event comes again
    each time the loop goes round. *)
Definition loop_run : run :=
  mkRun
    [Hook (module_frame 1 []) EvLine;
     Hook (module_frame 1 [("i", PyInt 0)]) EvLine;
     Hook (module_frame 1 [("i", PyInt 1)]) EvLine]
    no_hooks (own "for i in range(2): pass").


(** [import numpy], [print("after")] *)
Definition numpy_run : run :=
  mkRun
    (Hook (module_frame 1 []) EvLine :: Import "numpy" None ::
     Hook (module_frame 2 [("numpy", PyModule "numpy" true)]) EvLine ::
     print_call "after")
    (error_hooks "Error" (unsupported_message "numpy")) (own "import numpy").

(** [try: import numpy], [except ImportError: print("no numpy")],
    [print("after")]: the user's code catches the [ImportError] and runs
    on.  Were the import to succeed, line 4 would come next. *)
Definition guarded_run : run :=
  mkRun
    [Hook (module_frame 1 []) EvLine;
     Hook (module_frame 2 []) EvLine;
     (Import "numpy"
        (Some (Hook (module_frame 2 []) EvException ::
               Hook (module_frame 3 []) EvLine ::
               Hook (module_frame 4 []) EvLine ::
               (print_call "no numpy" ++
                Hook (module_frame 5 []) EvLine ::
                print_call "after"))));
     Hook (module_frame 5 [("numpy", PyModule "numpy" true)]) EvLine]
    no_hooks (own "try: import numpy").

(** [from collections import Counter], [c = Counter([1, 1, 2])],
    [d = Counter([1, 1, 2])], [n = 0] *)
Definition Counter_class : pyval := PyCallable 200 "Counter" None.
Definition counter_c : pyval := PyDict 201 "Counter" [(PyInt 1, PyInt 2); (PyInt 2, PyInt 1)].
Definition counter_d : pyval := PyDict 202 "Counter" [(PyInt 1, PyInt 2); (PyInt 2, PyInt 1)].

Definition counter_run : run :=
  mkRun
    [Hook (module_frame 1 []) EvLine;
     (Import "collections" None);
     Hook (module_frame 2 [("Counter", Counter_class)]) EvLine;
     Hook (module_frame 3 [("Counter", Counter_class); ("c", counter_c)]) EvLine;
     Hook (module_frame 4 [("Counter", Counter_class); ("c", counter_c);
                           ("d", counter_d)]) EvLine]
    no_hooks (own "from collections import Counter").

(** [print("ImportError")]: a program that runs to its end *)
Definition shout_run : run :=
  mkRun (Hook (module_frame 1 []) EvLine :: print_call "ImportError")
        no_hooks (own "print(ImportError)").

(** A heap whose one entry is a list that holds itself, and a store that
    holds two snapshots. *)
Definition self_heap : heap_map :=
  {[ "id1" := mkEntry (HList "list" [Reference "id1"; Primitive "a"]) None ]}.

Definition two_steps : Service.store :=
  Service.mkStore true false None
    [mkSnapshot (Some "Global frame") [] ∅ "partial" 1;
     mkSnapshot (Some "Global frame") [("x", Primitive "5")] ∅ "complete" 2]
    0 (mkSnapshot (Some "Global frame") [] ∅ "complete" 1).

(** The message of the JavaScript error for a Python exception. *)
Definition error_message (e : py_exn) : string := "PythonError: " +:+ exn_str e.

End Scenario.

(** * Heap ids *)
Section MaterializerFacts.
Import Py.

(** Induction on a value with the elements of a tuple or list as
    subterms. *)
Lemma pyval_elems_ind (P : pyval -> Prop) :
  (forall v,
      match v with
      | PyTuple _ elems | PyList _ elems => Forall P elems
      | _ => True
      end -> P v) ->
  forall v, P v.
Proof.
  intros H.
  refine (fix IH (v : pyval) : P v := H v _).
  destruct v; try exact I.
  - induction elems as [|x l IHl]; constructor; [apply IH | exact IHl].
  - induction elems as [|x l IHl]; constructor; [apply IH | exact IHl].
Qed.

Lemma materializer_step_refl st : materializer_step st st.
Proof. unfold materializer_step; repeat split; reflexivity. Qed.

Lemma materializer_step_trans st1 st2 st3 :
  materializer_step st1 st2 -> materializer_step st2 st3 ->
  materializer_step st1 st3.
Proof.
  unfold materializer_step. intros (A1 & B1 & C1 & D1) (A2 & B2 & C2 & D2).
  repeat split; try congruence. lia.
Qed.

Lemma heap_store_step i b a st : materializer_step st (heap_store i b a st).
Proof. unfold materializer_step; cbn; repeat split; reflexivity. Qed.

Lemma get_heap_id_step st : materializer_step st (snd (get_heap_id st)).
Proof. unfold materializer_step; cbn; repeat split; lia. Qed.

Lemma process_value_tuple rt oid elems st :
  process_value rt (PyTuple oid elems) st =
  let '(heap_id, st1) := get_heap_id st in
  let '(elements, st2) := process_elements rt elems st1 in
  (Reference heap_id, heap_store heap_id (HList "tuple" elements) None st2).
Proof. reflexivity. Qed.

Lemma process_value_list rt oid elems st :
  process_value rt (PyList oid elems) st =
  let '(heap_id, st1) := get_heap_id st in
  let '(elements, st2) := process_elements rt elems st1 in
  (Reference heap_id, heap_store heap_id (HList "list" elements) None st2).
Proof. reflexivity. Qed.

Lemma process_elements_step rt elems :
  Forall (fun v => forall st, materializer_step st (snd (process_value rt v st))) elems ->
  forall st, materializer_step st (snd (process_elements rt elems st)).
Proof.
  induction 1 as [|x l Hx Hl IH]; intros st; cbn [process_elements].
  - apply materializer_step_refl.
  - specialize (Hx st). destruct (process_value rt x st) as [d st1]. cbn in Hx.
    specialize (IH st1). destruct (process_elements rt l st1) as [ds st2]. cbn in *.
    eapply materializer_step_trans; eassumption.
Qed.

Local Ltac fresh_id_then_store :=
  cbn [Py.get_heap_id snd];
  eapply materializer_step_trans; [apply get_heap_id_step | apply heap_store_step].

Lemma process_value_step rt v :
  forall st, materializer_step st (snd (process_value rt v st)).
Proof.
  induction v as [v IH] using pyval_elems_ind.
  destruct v; intros st; try apply materializer_step_refl.
  - rewrite process_value_tuple. cbn [get_heap_id].
    pose proof (process_elements_step rt elems IH (snd (get_heap_id st))) as H.
    cbn [get_heap_id snd] in H.
    destruct (process_elements rt elems _) as [els st2]. cbn [snd] in *.
    eapply materializer_step_trans; [apply get_heap_id_step|].
    eapply materializer_step_trans; [exact H|]. apply heap_store_step.
  - rewrite process_value_list. cbn [get_heap_id].
    pose proof (process_elements_step rt elems IH (snd (get_heap_id st))) as H.
    cbn [get_heap_id snd] in H.
    destruct (process_elements rt elems _) as [els st2]. cbn [snd] in *.
    eapply materializer_step_trans; [apply get_heap_id_step|].
    eapply materializer_step_trans; [exact H|]. apply heap_store_step.
  - cbn [process_value]. fresh_id_then_store.
  - cbn [process_value]. fresh_id_then_store.
  - cbn [process_value]. destruct has_file; apply materializer_step_refl.
  - cbn [process_value]. destruct (String.eqb cls "Counter").
    + fresh_id_then_store.
    + destruct iterator; [apply materializer_step_refl|].
      destruct (String.eqb cls "Pattern"); apply materializer_step_refl.
Qed.




End MaterializerFacts.

(** * Tracing *)
Section TracingFacts.
Import Py.

Lemma capture_step_refl st : capture_step st st.
Proof.
  unfold capture_step. repeat split; try reflexivity.
  exists []. by rewrite app_nil_r.
Qed.

Lemma capture_step_trans st1 st2 st3 :
  capture_step st1 st2 -> capture_step st2 st3 -> capture_step st1 st3.
Proof.
  unfold capture_step.
  intros ([l1 A1] & B1 & C1 & D1) ([l2 A2] & B2 & C2 & D2).
  repeat split; try congruence; [|lia].
  exists (l1 ++ l2). by rewrite A2, A1, app_assoc.
Qed.

Lemma materializer_capture_step st st' :
  materializer_step st st' -> capture_step st st'.
Proof.
  intros (A & B & C & D). repeat split; try assumption.
  exists []. by rewrite app_nil_r.
Qed.

Lemma capture_variables_step rt keep items :
  forall vars st,
    materializer_step st (snd (capture_variables rt keep items vars st)).
Proof.
  induction items as [|[name val] items IH]; intros vars st; cbn [capture_variables].
  - apply materializer_step_refl.
  - destruct (keep name); [|apply IH].
    pose proof (process_value_step rt val st) as H.
    destruct (process_value rt val st) as [d st1]. cbn [snd] in H.
    eapply materializer_step_trans; [exact H | apply IH].
Qed.

Lemma capture_frame_step rt frame st :
  materializer_step st (snd (capture_frame rt frame st)).
Proof.
  unfold capture_frame.
  destruct (String.eqb (co_name frame) "<module>").
  - pose proof (capture_variables_step rt keep_global (f_globals frame) [] st) as H.
    destruct (capture_variables _ _ _ _ _) as [vars st1]. exact H.
  - pose proof (capture_variables_step rt keep_local (f_locals frame) [] st) as H.
    destruct (capture_variables _ _ _ _ _) as [vars st1]. exact H.
Qed.

Lemma append_step_capture s st : capture_step st (append_step s st).
Proof.
  unfold capture_step, append_step, set_steps. cbn.
  repeat split; try reflexivity. by exists [s].
Qed.

Lemma trace_execution_step rt frame event st :
  capture_step st (trace_execution rt frame event st).
Proof.
  unfold trace_execution.
  destruct (_ || _ || _); [apply capture_step_refl|].
  destruct (_ && _); [|apply capture_step_refl].
  destruct (_ && _); [apply capture_step_refl|].
  pose proof (capture_frame_step rt frame st) as H.
  destruct (capture_frame rt frame st) as [state st1]. cbn [snd] in H.
  eapply capture_step_trans; [apply materializer_capture_step, H|].
  apply append_step_capture.
Qed.

Lemma run_hooks_step rt hooks :
  forall st, capture_step st (run_hooks rt hooks st).
Proof.
  induction hooks as [|h hooks IH]; intros st; cbn.
  - apply capture_step_refl.
  - eapply capture_step_trans; [apply trace_execution_step | apply IH].
Qed.

End TracingFacts.

(** * Post-processing *)
Section PostProcessFacts.
Import Py.

Lemma fold_strip_step l :
  forall acc, snd (fold_left strip_step l acc) = snd acc ++ map strip_one l.
Proof.
  induction l as [|s l IH]; intros acc; cbn [fold_left map].
  - by rewrite app_nil_r.
  - rewrite IH. cbn. by rewrite <- app_assoc.
Qed.

Lemma fold_annotate_step rt l :
  forall acc,
    snd (fold_left (annotate_step rt) l acc) = snd acc ++ map (annotate_one rt) l.
Proof.
  induction l as [|s l IH]; intros acc; cbn [fold_left map].
  - by rewrite app_nil_r.
  - rewrite IH. cbn. by rewrite <- app_assoc.
Qed.

Lemma strip_steps_spec st :
  execution_steps (strip_steps st) = map strip_one (execution_steps st) /\
  capturer_value (strip_steps st) = capturer_value st /\
  stdout_is_capturer (strip_steps st) = stdout_is_capturer st.
Proof.
  unfold strip_steps.
  pose proof (fold_strip_step (execution_steps st) (heap st, [])) as H.
  destruct (fold_left _ _ _) as [shared steps]. cbn in *. by subst.
Qed.

Lemma annotate_steps_spec rt st :
  execution_steps (annotate_steps rt st) = map (annotate_one rt) (execution_steps st) /\
  capturer_value (annotate_steps rt st) = capturer_value st /\
  stdout_is_capturer (annotate_steps rt st) = stdout_is_capturer st.
Proof.
  unfold annotate_steps.
  pose proof (fold_annotate_step rt (execution_steps st) (heap st, [])) as H.
  destruct (fold_left _ _ _) as [shared steps]. cbn in *. by subst.
Qed.


(** Every step that [post_process] leaves carries the captured output
    of the end of the run. *)
Lemma post_process_outputs rt r st :
  capturer_value (post_process rt r st) = capturer_value st /\
  Forall (fun s => output s = capturer_value st)
         (execution_steps (post_process rt r st)).
Proof.
  unfold post_process.
  destruct (strip_steps_spec st) as (S1 & S2 & _).
  set (st2 := if Nat.eqb _ 0 then _ else _).
  assert (capturer_value st2 = capturer_value st) as C2.
  { subst st2. destruct (Nat.eqb _ 0); [|exact S2].
    pose proof (capture_frame_step rt (own_frame r) (strip_steps st)) as H.
    destruct (capture_frame _ _ _) as [state st']. cbn [snd] in H.
    destruct H as (_ & H & _). cbn. congruence. }
  destruct (annotate_steps_spec rt st2) as (A1 & A2 & _).
  unfold get_output. rewrite A2, C2.
  set (st3 := annotate_steps rt st2) in *.
  assert (Forall (fun s => output s = capturer_value st)
                 (map (set_output (capturer_value st)) (execution_steps st3))) as F.
  { apply Forall_forall. intros s Hs. apply list_elem_of_In, in_map_iff in Hs.
    destruct Hs as (s0 & <- & _). reflexivity. }
  cbn [set_steps execution_steps].
  destruct (map _ (execution_steps st3)) as [|a [|b l]]; cbn; rewrite ?A2, ?C2;
    (split; [reflexivity|]); try exact F.
  inversion F; subst. repeat constructor; assumption.
Qed.

End PostProcessFacts.

(** * Running the user's code *)
Section ExecFacts.
Import Py.


Lemma stdout_write_capture text st :
  execution_steps (stdout_write text st) = execution_steps st /\
  stdout_is_capturer (stdout_write text st) = stdout_is_capturer st /\
  next_heap_id (stdout_write text st) = next_heap_id st.
Proof.
  unfold stdout_write. destruct (stdout_is_capturer st) eqn:E; cbn; by rewrite ?E.
Qed.


(** Induction on the actions of a program, with the recovery of a
    caught import as a smaller program. *)
Lemma actions_ind (P : list action -> Prop) :
  P [] ->
  (forall a rest,
      match a with
      | Import _ (Some recovery) => P recovery
      | _ => True
      end -> P rest -> P (a :: rest)) ->
  forall actions, P actions.
Proof.
  intros Hnil Hcons.
  assert (forall a, match a with
                    | Import _ (Some recovery) => P recovery
                    | _ => True
                    end) as Hhead.
  { refine (fix IH (a : action) := _).
    destruct a as [frame event|text|name [recovery|]|e]; try exact I.
    induction recovery as [|b l IHl]; [exact Hnil|].
    apply Hcons; [apply IH | exact IHl]. }
  induction actions as [|a rest IH]; [exact Hnil|].
  apply Hcons; [apply Hhead | exact IH].
Qed.

(** An import that fails with nothing of the user's code in the way of
    the exception ends [exec] where it stands. *)
Lemma exec_uncaught_import rt name msg following st :
  custom_import rt name = inl msg ->
  exec rt (Import name None :: following) st = (st, Some (mkExn ImportError msg)).
Proof. intros Hrej. cbn. by rewrite Hrej. Qed.

(** An import that fails and that the user's code catches: the program
    goes on with the recovery. *)
Lemma exec_caught_import rt name msg recovery following st :
  custom_import rt name = inl msg ->
  exec rt (Import name (Some recovery) :: following) st = exec rt recovery st.
Proof. intros Hrej. cbn [exec exec_action]. by rewrite Hrej. Qed.

(** An import that [custom_import] rejects, with nothing of the user's
    code in the way of the exception, ends [exec]: what follows it in the
    program does not matter. *)
Lemma exec_rejected_import rt name msg following :
  custom_import rt name = inl msg ->
  forall before st,
    exec rt (before ++ Import name None :: following) st =
    exec rt (before ++ [Import name None]) st.
Proof.
  intros Hrej. induction before as [|a before IH]; intros st.
  - cbn [app]. by rewrite !(exec_uncaught_import rt name msg).
  - change (exec_action rt a (exec rt (before ++ Import name None :: following)) st =
            exec_action rt a (exec rt (before ++ [Import name None])) st).
    destruct a as [frame event|text|name0 caught|e]; cbn [exec_action];
      [apply IH | apply IH | | reflexivity].
    destruct (custom_import rt name0); [reflexivity | apply IH].
Qed.

Lemma custom_import_rejects rt name :
  Str.mem (py_lower rt name) unsupported_modules = true ->
  custom_import rt name =
    inl (if String.eqb (py_lower rt name) "requests" then requests_message
         else unsupported_message name).
Proof.
  intros H. unfold custom_import. rewrite H. by destruct (String.eqb _ _).
Qed.

Lemma custom_import_delegates rt name :
  Str.mem (py_lower rt name) unsupported_modules = false ->
  custom_import rt name = real_import rt name.
Proof. intros H. unfold custom_import. by rewrite H. Qed.

(** Every snapshot that [run_with_trace] returns carries the captured
    output of the end of the run. *)
Lemma run_with_trace_outputs rt r st0 snaps :
  fst (run_with_trace rt r st0) = Returned snaps ->
  Forall (fun s => snap_output s = get_output (snd (run_with_trace rt r st0))) snaps.
Proof.
  unfold run_with_trace.
  destruct (capture_phase rt r st0) as [st [e|]]; cbn [fst snd]; [discriminate|].
  intros [= <-]. destruct (post_process_outputs rt r st) as [Hcv Hall].
  unfold to_js, get_output, restore_stdout. cbn [capturer_value].
  apply Forall_forall. intros s Hs. apply list_elem_of_In, in_map_iff in Hs.
  destruct Hs as (step & <- & Hin). cbn [snap_output].
  rewrite Forall_forall in Hall. rewrite Hcv. apply Hall. by apply list_elem_of_In.
Qed.

End ExecFacts.

(** * The store *)
Section StoreFacts.
Import Py Service.

Lemma resetExecutionState_steps s : executionSteps (resetExecutionState s) = [].
Proof. reflexivity. Qed.

Lemma formatListElements_output steps s :
  In s (formatListElements steps) ->
  exists s0, In s0 steps /\ snap_output s = snap_output s0.
Proof.
  unfold formatListElements. intros H. apply in_map_iff in H.
  destruct H as (s0 & <- & Hin). by exists s0.
Qed.

(** The steps in the store after [processExecutionSteps] come from the
    steps it was given, or were there before. *)
Lemma processExecutionSteps_steps steps st s :
  In s (executionSteps (processExecutionSteps steps st)) ->
  In s (executionSteps st) \/
  exists s0, In s0 steps /\ snap_output s = snap_output s0.
Proof.
  unfold processExecutionSteps.
  destruct (Nat.ltb 0 _); [|by left].
  cbn [setExecutionState setExecutionSteps executionSteps]. intros H. right.
  apply formatListElements_output in H. destruct H as (s0 & Hin & E).
  apply filter_In in Hin. exists s0. tauto.
Qed.

End StoreFacts.

(** * The captured output *)
Section OutputFacts.
Import Py.

Lemma str_app_nil_r (s : string) : s +:+ "" = s.
Proof.
  induction s as [|a s IH]; [reflexivity|].
  change (String a (s +:+ "") = String a s). by rewrite IH.
Qed.

Lemma str_app_assoc (s1 s2 s3 : string) : s1 +:+ (s2 +:+ s3) = (s1 +:+ s2) +:+ s3.
Proof.
  induction s1 as [|a s1 IH]; [reflexivity|].
  change (String a (s1 +:+ (s2 +:+ s3)) = String a ((s1 +:+ s2) +:+ s3)).
  by rewrite IH.
Qed.

Lemma stdout_write_value text st :
  capturer_value (stdout_write text st) =
  if stdout_is_capturer st then capturer_value st +:+ text else capturer_value st.
Proof. unfold stdout_write. by destruct (stdout_is_capturer st). Qed.

Lemma exec_written rt actions :
  forall st,
    stdout_is_capturer (fst (exec rt actions st)) = stdout_is_capturer st /\
    capturer_value (fst (exec rt actions st)) =
      if stdout_is_capturer st then capturer_value st +:+ written rt actions
      else capturer_value st.
Proof.
  induction actions as [|a actions Hrec IH] using actions_ind; intros st.
  - cbn. split; [reflexivity|]. destruct (stdout_is_capturer st); [|reflexivity].
    by rewrite str_app_nil_r.
  - change (exec rt (a :: actions) st) with (exec_action rt a (exec rt actions) st).
    change (written rt (a :: actions)) with (written_action rt a (written rt actions)).
    destruct a as [frame event|text|name caught|e]; cbn [exec_action written_action].
    + destruct (trace_execution_step rt frame event st) as (_ & Hv & Hf & _).
      destruct (IH (trace_execution rt frame event st)) as [IH1 IH2].
      rewrite IH1, IH2, Hf, Hv. done.
    + destruct (stdout_write_capture text st) as (_ & Hf & _).
      destruct (IH (stdout_write text st)) as [IH1 IH2].
      rewrite IH1, IH2, Hf, stdout_write_value. split; [reflexivity|].
      destruct (stdout_is_capturer st); [|reflexivity].
      by rewrite str_app_assoc.
    + destruct (custom_import rt name); [|apply IH].
      destruct caught as [recovery|]; [apply (Hrec st)|].
      cbn. split; [reflexivity|].
      destruct (stdout_is_capturer st); [|reflexivity]. by rewrite str_app_nil_r.
    + cbn. split; [reflexivity|].
      destruct (stdout_is_capturer st); [|reflexivity]. by rewrite str_app_nil_r.
Qed.

(** While [sys.stdout] is bound to the capturer, the output that a run
    leaves in it is what the user's code wrote, followed by the line of
    [create_error_state] if an exception was caught. *)
Lemma run_output_written rt r st0 :
  stdout_is_capturer st0 = true ->
  get_output (snd (run_with_trace rt r st0)) =
  written rt (user_code r) +:+
  match snd (exec rt (user_code r) (reset_state st0)) with
  | Some e =>
      match exn_cls e with
      | NonException => ""
      | KeyError => "KeyError: " +:+ exn_str e +:+ Str.newline
      | _ => "Error: " +:+ exn_str e +:+ Str.newline
      end
  | None => ""
  end.
Proof.
  intros Hflag. unfold run_with_trace, capture_phase.
  destruct (exec_written rt (user_code r) (reset_state st0)) as [Hf Hv].
  cbn [reset_state stdout_is_capturer capturer_value] in Hf, Hv.
  rewrite Hflag in Hf, Hv. cbn in Hv.
  destruct (exec rt (user_code r) (reset_state st0)) as [st1 [e|]]; cbn [fst snd] in *.
  - assert (forall kind,
               capturer_value (create_error_state rt kind (exn_str e) (handler r) st1)
               = written rt (user_code r) +:+ kind +:+ ": " +:+ exn_str e +:+ Str.newline)
      as Herr.
    { intros kind. unfold create_error_state, py_print, append_step.
      cbn [set_steps capturer_value].
      destruct (run_hooks_step rt (before_print (handler r)) st1) as (_ & V1 & F1 & _).
      set (sa := run_hooks rt (before_print (handler r)) st1) in *.
      set (fm := kind +:+ ": " +:+ exn_str e).
      destruct (stdout_write_capture fm sa) as (_ & F2 & _).
      destruct (run_hooks_step rt (within_print (handler r)) (stdout_write fm sa))
        as (_ & V3 & F3 & _).
      set (sb := run_hooks rt (within_print (handler r)) (stdout_write fm sa)) in *.
      destruct (stdout_write_capture Str.newline sb) as (_ & F4 & _).
      destruct (run_hooks_step rt (after_print (handler r)) (stdout_write Str.newline sb))
        as (_ & V5 & _).
      rewrite V5, stdout_write_value, F3, F2, F1, Hf, V3, stdout_write_value, F1, Hf, V1, Hv.
      subst fm. by rewrite <- !str_app_assoc. }
    destruct (exn_cls e); cbn [fst snd]; unfold get_output, restore_stdout;
      cbn [capturer_value];
      rewrite ?(proj1 (post_process_outputs rt r _)), ?Herr, ?Hv, ?str_app_nil_r;
      reflexivity.
  - unfold get_output, restore_stdout. cbn [capturer_value].
    by rewrite (proj1 (post_process_outputs rt r _)), Hv, str_app_nil_r.
Qed.

End OutputFacts.

Section LengthFacts.
Import Py.

(** The trace that [run_with_trace] returns has at least two snapshots:
    one is captured if none was, and a single one is duplicated. *)
Lemma run_with_trace_at_least_two rt r st0 snaps :
  fst (run_with_trace rt r st0) = Returned snaps -> (2 <= length snaps)%nat.
Proof.
  unfold run_with_trace.
  destruct (capture_phase rt r st0) as [st [e|]]; cbn [fst]; [discriminate|].
  intros [= <-]. unfold to_js. rewrite length_map. unfold post_process.
  set (st2 := if Nat.eqb _ 0 then _ else _).
  assert (execution_steps st2 <> []) as Hne.
  { subst st2. destruct (Nat.eqb _ 0) eqn:E.
    - destruct (capture_frame _ _ _) as [state st']. cbn.
      intros H. by apply app_eq_nil in H as [_ H].
    - intros H. rewrite H in E. discriminate. }
  destruct (annotate_steps_spec rt st2) as (A1 & _).
  set (st3 := annotate_steps rt st2) in *.
  cbn [set_steps execution_steps]. rewrite A1, map_map.
  destruct (execution_steps st2) as [|a [|b l]]; [done|cbn; lia|cbn; lia].
Qed.

End LengthFacts.

(** * The claims: capture and post-processing *)
Section CaptureClaims.
Import Py Service Scenario.




(** C2, as the specification has it, fails on [builtins]: the name is not
    among the modules that the rejection message enumerates, and
    [custom_import] hands it to the interpreter's own import, which finds
    it (the instrumentation itself imports it that way). *)
Lemma C2_unlisted_module_is_imported :
  ~ (forall rt name,
        ~ In name allowed_modules ->
        exists msg, custom_import rt name = inl msg).
Proof.
  intros H. destruct (H cpython "builtins") as [msg Hmsg].
  - cbn. intros Hin. repeat (destruct Hin as [Hin|Hin]; [discriminate|]). exact Hin.
  - vm_compute in Hmsg. discriminate.
Qed.

(** The run of [guarded_run]: the user's code catches the [ImportError]
    of [import numpy] and runs to its end.  No exception leaves [exec],
    and what the program prints after the import is in the output. *)
Example guarded_import_runs_on :
  snd (exec cpython (user_code guarded_run) (reset_state initial_state)) = None /\
  get_output (snd (run_with_trace cpython guarded_run initial_state)) =
    "no numpy" +:+ Str.newline +:+ "after" +:+ Str.newline.
Proof. split; vm_compute; reflexivity. Qed.

(** C2, amended: a module name whose lower-case form is not on the
    deny-list [unsupported_modules] is handed to the interpreter's own
    import, whether the rejection message enumerates it or not.  For a
    name whose lower-case form is on the deny-list, importing it raises a
    descriptive [ImportError] without asking the interpreter (for
    [requests] the message enumerates the modules allowed, for the others
    it names the module).  Where no [except] or [finally] clause of the
    user's code is in the way of the exception, the import ends the
    user's code on the spot, with the state as it was at the import, and
    the run is the run of the program cut after that import: nothing
    that follows it is executed, no print and no trace event.  Where
    such a clause is in its way, the program goes on with what the user's
    code does then, and with nothing of what follows a successful
    import. *)
Theorem C2_deny_listed_import_fails_fast rt name :
  (Str.mem (py_lower rt name) unsupported_modules = false ->
   custom_import rt name = real_import rt name) /\
  (Str.mem (py_lower rt name) unsupported_modules = true ->
   let msg :=
     if String.eqb (py_lower rt name) "requests" then requests_message
     else unsupported_message name in
   custom_import rt name = inl msg /\
   (forall following st,
       exec rt (Import name None :: following) st =
       (st, Some (mkExn ImportError msg))) /\
   (forall before following hh own_frame st0,
       run_with_trace rt (mkRun (before ++ Import name None :: following) hh own_frame) st0 =
       run_with_trace rt (mkRun (before ++ [Import name None]) hh own_frame) st0) /\
   (forall recovery following st,
       exec rt (Import name (Some recovery) :: following) st = exec rt recovery st)).
Proof.
  split; [apply custom_import_delegates|].
  intros Hdeny msg. pose proof (custom_import_rejects rt name Hdeny) as Hrej.
  fold msg in Hrej. split; [exact Hrej|]. split; [|split].
  - intros following st. by apply exec_uncaught_import.
  - intros before following hh own_frame st0.
    unfold run_with_trace, capture_phase. cbn [user_code handler].
    rewrite (exec_rejected_import rt name msg following Hrej). reflexivity.
  - intros recovery following st. by apply (exec_caught_import rt name msg).
Qed.

(** [builtins] goes to the interpreter's own import.  [import numpy]
    followed by a [print]: the message, the user's code ends at the
    import, and the run with the [print] is the run without it. *)
Lemma C2_witness :
  custom_import cpython "builtins" = real_import cpython "builtins" /\
  (let msg := "Module 'numpy' is not supported in this environment. Please use standard Python libraries only." in
   custom_import cpython "numpy" = inl msg /\
   (forall following st,
       exec cpython (Import "numpy" None :: following) st =
       (st, Some (mkExn ImportError msg))) /\
   (forall before following hh own_frame st0,
       run_with_trace cpython (mkRun (before ++ Import "numpy" None :: following) hh own_frame) st0 =
       run_with_trace cpython (mkRun (before ++ [Import "numpy" None]) hh own_frame) st0) /\
   (forall recovery following st,
       exec cpython (Import "numpy" (Some recovery) :: following) st =
       exec cpython recovery st)).
Proof.
  split.
  - apply (proj1 (C2_deny_listed_import_fails_fast cpython "builtins")). reflexivity.
  - apply (proj2 (C2_deny_listed_import_fails_fast cpython "numpy")). reflexivity.
Defined.

(** C3 fails on the run of [print("hi")].  [run_with_trace] returns five
    snapshots: the one of line 1 of the program and four of the frame of
    [OutputCapturer.write], which [print] calls twice.  The trace that
    Python returns always has two snapshots or more
    ([run_with_trace_at_least_two]), but the filter of
    [processExecutionSteps] comes after that and drops the four, so that
    the store holds exactly one. *)
Theorem C3_print_run_leaves_one_snapshot :
  (exists raw,
      fst (run_with_trace cpython print_run initial_state) = Returned raw /\
      map snap_name raw =
        [Some "Global frame"; Some "write"; Some "write"; Some "write"; Some "write"]) /\
  length (executionSteps
            (fst (runCode cpython error_message print_run initial_store initial_state)))
  = 1%nat.
Proof.
  split.
  - eexists. split; [vm_compute; reflexivity|]. vm_compute. reflexivity.
  - vm_compute. reflexivity.
Qed.

(** C4: after any run, from any state of the store and of the
    interpreter, every snapshot in the store carries as its [output] the
    output captured by the end of the run ([get_output()] in the state
    that the run leaves), the same for all of them. *)
Theorem C4_every_snapshot_has_final_output rt error_message r s st step :
  In step (executionSteps (fst (runCode rt error_message r s st))) ->
  snap_output step = get_output (snd (runCode rt error_message r s st)).
Proof.
  unfold runCode.
  pose proof (run_with_trace_outputs rt r st) as Hout.
  destruct (run_with_trace rt r st) as [[steps|e] st']; cbn [fst snd] in *.
  - specialize (Hout steps eq_refl). rewrite Forall_forall in Hout.
    intros Hin. cbn [setIsRunning executionSteps] in Hin.
    destruct (Nat.ltb 0 (length steps)).
    + apply processExecutionSteps_steps in Hin. destruct Hin as [Hin|(s0 & Hin & E)].
      * rewrite resetExecutionState_steps in Hin. destruct Hin.
      * rewrite E. apply Hout. by apply list_elem_of_In.
    + rewrite resetExecutionState_steps in Hin. destruct Hin.
  - intros Hin. cbn in Hin. destruct Hin.
Qed.

(** The run of [print("hi")] leaves one snapshot in the store; its output
    is all that was printed. *)
Lemma C4_witness :
  exists step,
    executionSteps
      (fst (runCode cpython Scenario.error_message print_run initial_store initial_state))
    = [step] /\
    snap_output step =
      get_output
        (snd (runCode cpython Scenario.error_message print_run initial_store initial_state)) /\
    snap_output step = "hi" +:+ Str.newline.
Proof.
  eexists. split; [vm_compute; reflexivity|]. split.
  - apply (C4_every_snapshot_has_final_output cpython Scenario.error_message print_run
             initial_store initial_state).
    vm_compute. left. reflexivity.
  - vm_compute. reflexivity.
Defined.

(** C5 fails on the run of the one-line loop [for i in range(2): pass].
    The guard against a second snapshot of the same line asks for a frame
    whose code is named [__main__]; the code of the top-level frame is
    named [<module>] (as [capture_frame] itself tests), so the guard
    never holds for it and each of the three line events of line 1 is
    captured: three consecutive snapshots of the top-level frame with
    the same line number. *)
Theorem C5_same_line_is_captured_again :
  map (fun s => (frame_name s, currentLine s))
      (execution_steps (fst (capture_phase cpython loop_run initial_state)))
  = [("Global frame", 1); ("Global frame", 1); ("Global frame", 1)].
Proof. vm_compute. reflexivity. Qed.




(** C8 fails on [c = Counter([1, 1, 2])].  A [collections.Counter] is an
    instance of a subclass of [dict], and [process_value] tests
    [isinstance(val, dict)] before it comes to the branch for Counter
    objects: the instance is stored as a plain "dict" entry without an
    annotation (under a fresh id, as every dict is).  The post-processing
    annotates the entry of the class [Counter], not those of its
    instances. *)
Theorem C8_Counter_instance_is_stored_as_dict :
  (forall rt oid items st,
      exists value,
        process_value rt (PyDict oid "Counter" items) st =
        (Reference (heap_id_of (next_heap_id st)),
         heap_store (heap_id_of (next_heap_id st)) (HDict value) None
                    (snd (get_heap_id st)))) /\
  (exists snaps s,
      fst (run_with_trace cpython counter_run initial_state) = Returned snaps /\
      last snaps = Some s /\
      Dict.get "c" (snap_variables s) = Some (Reference "id5") /\
      Dict.get "d" (snap_variables s) = Some (Reference "id6") /\
      snap_heap s !! "id5" = Some (mkEntry (HDict [("1", "2"); ("2", "1")]) None) /\
      snap_heap s !! "id6" = Some (mkEntry (HDict [("1", "2"); ("2", "1")]) None)).
Proof.
  split.
  - intros rt oid items st. eexists. reflexivity.
  - eexists _, _. split; [vm_compute; reflexivity|].
    split; [vm_compute; reflexivity|]. vm_compute. repeat split.
Qed.

End CaptureClaims.

(** * Drawing of nested lists *)
Section DrawingFacts.
Import Py Service Num Config Viz.

Lemma forEach_ext {A} (f g : A -> nat -> option (list svg_node)) l :
  (forall a i, f a i = g a i) ->
  forall i, forEach f i l = forEach g i l.
Proof.
  intros H. induction l as [|a l IH]; intros i; cbn; [reflexivity|].
  by rewrite H, IH.
Qed.

Lemma forEach_is_Some {A} (f : A -> nat -> option (list svg_node)) l :
  (forall a i, is_Some (f a i)) ->
  forall i, is_Some (forEach f i l).
Proof.
  intros H. induction l as [|a l IH]; intros i; cbn; [by eexists|].
  destruct (H a i) as [nodes ->]. destruct (IH (S i)) as [rest ->]. by eexists.
Qed.

(** [renderReferenceElement] asks for [drawList] only below level 3, and
    then one level further down. *)
Lemma renderReferenceElement_ext heap call1 call2 id cellX cellSize y cellHeight
    index level parentX :
  ((level < 3)%nat ->
   forall els x' y', call1 els x' y' (level + 1)%nat = call2 els x' y' (level + 1)%nat) ->
  renderReferenceElement heap call1 id cellX cellSize y cellHeight index level parentX =
  renderReferenceElement heap call2 id cellX cellSize y cellHeight index level parentX.
Proof.
  intros H. unfold renderReferenceElement.
  destruct (heap !! id) as [obj|]; [|reflexivity].
  destruct (Nat.ltb level 3) eqn:E; [|reflexivity].
  apply Nat.ltb_lt in E. destruct (body obj); try reflexivity.
  by rewrite (H E).
Qed.

Lemma renderReferenceElement_is_Some heap call id cellX cellSize y cellHeight
    index level parentX :
  ((level < 3)%nat -> forall els x' y', is_Some (call els x' y' (level + 1)%nat)) ->
  is_Some (renderReferenceElement heap call id cellX cellSize y cellHeight
             index level parentX).
Proof.
  intros H. unfold renderReferenceElement.
  destruct (heap !! id) as [obj|]; [|by eexists].
  destruct (Nat.ltb level 3) eqn:E; [|by eexists].
  apply Nat.ltb_lt in E. destruct (body obj); try by eexists.
  destruct (H E elements
              (parentX + of_nat (length elements) * cellSize
               + LAYOUT.object_horizontalOffset)%num
              (y + of_nat index * LAYOUT.object_verticalGap)%num) as [nodes ->].
  by eexists.
Qed.

Lemma drawList_body_ext heap call1 call2 elements x y level :
  ((level < 3)%nat ->
   forall els x' y', call1 els x' y' (level + 1)%nat = call2 els x' y' (level + 1)%nat) ->
  drawList_body heap call1 elements x y level =
  drawList_body heap call2 elements x y level.
Proof.
  intros H. unfold drawList_body.
  rewrite (forEach_ext _
             (fun element i =>
                match renderListElement heap call2 element
                        (x + of_nat i * LAYOUT.object_cell_size)%num
                        LAYOUT.object_cell_size y LAYOUT.object_cell_height i level x
                with
                | Some nodes =>
                    Some ([createRect (x + of_nat i * LAYOUT.object_cell_size)%num y
                             LAYOUT.object_cell_size LAYOUT.object_cell_height] ++
                          (if Nat.ltb i (length elements - 1)
                           then [createLine
                                   (x + of_nat i * LAYOUT.object_cell_size
                                    + LAYOUT.object_cell_size)%num y
                                   (x + of_nat i * LAYOUT.object_cell_size
                                    + LAYOUT.object_cell_size)%num
                                   (y + LAYOUT.object_cell_height)%num]
                           else []) ++
                          [createText
                             (x + of_nat i * LAYOUT.object_cell_size
                              + LAYOUT.object_cell_size * frac 1 2)%num
                             (y - #2)%num (pretty i)] ++
                          nodes)
                | None => None
                end)); [reflexivity|].
  intros element i. unfold renderListElement.
  destruct element as [value|id]; [reflexivity|].
  destruct (_ && _); [|reflexivity].
  by rewrite (renderReferenceElement_ext heap call1 call2).
Qed.

Lemma drawList_body_is_Some heap call elements x y level :
  ((level < 3)%nat -> forall els x' y', is_Some (call els x' y' (level + 1)%nat)) ->
  is_Some (drawList_body heap call elements x y level).
Proof.
  intros H. unfold drawList_body.
  match goal with
  | |- is_Some (match forEach ?f ?start ?l with _ => _ end) =>
      assert (forall a i, is_Some (f a i)) as Hcell;
      [|destruct (forEach_is_Some f l Hcell start) as [cells ->]; by eexists]
  end.
  intros element i. cbv beta. unfold renderListElement.
  destruct element as [value|id]; [by eexists|].
  destruct (_ && _); [|by eexists].
  destruct (renderReferenceElement_is_Some heap call id
              (x + of_nat i * LAYOUT.object_cell_size)%num LAYOUT.object_cell_size y
              LAYOUT.object_cell_height i level x H) as [nodes ->].
  by eexists.
Qed.

(** A budget of more than [3 - level] open calls is enough for
    [drawList] at [level], whatever the heap holds, and more budget does
    not change what is drawn. *)
Lemma drawList_enough heap :
  forall k level budget,
    (3 - level <= k)%nat -> (k < budget)%nat ->
    (forall elements x y, is_Some (drawList budget heap elements x y level)) /\
    (forall budget', (k < budget')%nat ->
       forall elements x y,
         drawList budget' heap elements x y level =
         drawList budget heap elements x y level).
Proof.
  induction k as [|k IH]; intros level budget Hk Hb.
  - destruct budget as [|b]; [lia|]. split.
    + intros elements x y. cbn [drawList]. apply drawList_body_is_Some. lia.
    + intros [|b'] Hb'; [lia|]. intros elements x y. cbn [drawList].
      apply drawList_body_ext. lia.
  - destruct budget as [|b]; [lia|]. split.
    + intros elements x y. cbn [drawList]. apply drawList_body_is_Some.
      intros Hlt els x' y'. apply (IH (level + 1)%nat b); lia.
    + intros [|b'] Hb'; [lia|]. intros elements x y. cbn [drawList].
      apply drawList_body_ext. intros Hlt els x' y'.
      apply (IH (level + 1)%nat b); lia.
Qed.

Lemma renderHeapObject_is_Some dom obj pos heap :
  is_Some (renderHeapObject dom obj pos heap).
Proof.
  unfold renderHeapObject. destruct (body obj); try by eexists.
  apply (drawList_enough heap 3 0 draw_budget); unfold draw_budget; lia.
Qed.

Lemma renderVariable_is_Some heap before currentY name data leftColumnWidth index fn :
  is_Some (renderVariable heap before currentY name data leftColumnWidth index fn).
Proof.
  unfold renderVariable. destruct data as [value|id]; [by eexists|].
  destruct (heap !! id) as [obj|]; [|by eexists].
  unfold renderReferenceVariable.
  match goal with
  | |- is_Some (match renderHeapObject ?d ?o ?p ?h with _ => _ end) =>
      destruct (renderHeapObject_is_Some d o p h) as [nodes ->]
  end.
  by eexists.
Qed.

Lemma renderVariables_is_Some heap before currentY variables leftColumnWidth :
  forall i fn,
    is_Some (renderVariables heap before currentY variables leftColumnWidth i fn).
Proof.
  induction variables as [|[name data] rest IH]; intros i fn; cbn; [by eexists|].
  destruct (renderVariable_is_Some heap before currentY name data leftColumnWidth i fn)
    as [fn1 ->].
  apply IH.
Qed.

Lemma drawFrame_is_Some hasError listInfo heap g currentY frameInfo frameIndex :
  is_Some (drawFrame hasError listInfo heap g currentY frameInfo frameIndex).
Proof.
  unfold drawFrame.
  destruct (_ && _ && _).
  - destruct (Nat.eqb frameIndex 0); [|by eexists].
    destruct (renderErrorMessage frameInfo currentY). by eexists.
  - destruct (calculateFrameWidth _) as [totalWidth leftColumnWidth].
    match goal with
    | |- is_Some (match renderVariables ?h ?b ?c ?v ?l ?i ?f with _ => _ end) =>
        destruct (renderVariables_is_Some h b c v l i f) as [fn ->]
    end.
    destruct (_ && _); [|by eexists].
    destruct (addInformationalElements _ _ _). by eexists.
Qed.

Lemma drawCallStack_is_Some g0 frames heap :
  is_Some (drawCallStack g0 frames heap).
Proof.
  unfold drawCallStack.
  match goal with
  | |- is_Some (match fold_left ?f ?l ?a with _ => _ end) =>
      assert (forall l' acc, is_Some acc -> is_Some (fold_left f l' acc)) as H
  end.
  { induction l' as [|fi l' IH]; intros acc Hacc; cbn [fold_left]; [exact Hacc|].
    apply IH. destruct Hacc as [[g y] ->]. apply drawFrame_is_Some. }
  match goal with
  | |- is_Some (match fold_left ?f ?l ?a with _ => _ end) =>
      destruct (H l a) as [[g y] ->]; by eexists
  end.
Qed.

(** The rendering effect always comes to an end with a drawing: the
    nesting budget is never used up. *)
Lemma render_effect_is_Some clientWidth executionState prevState s :
  is_Some (render_effect clientWidth executionState prevState s).
Proof.
  unfold render_effect. destruct (detectImportError executionState); [by eexists|].
  destruct (frames executionState) as [fs|].
  - destruct (drawCallStack_is_Some
                [SvgDefs; createText LAYOUT.object_startX #30 "Objects"] fs
                (es_heap executionState)) as [[g h] ->].
    by eexists.
  - destruct (frame executionState) as [[name variables]|]; [|by eexists].
    match goal with
    | |- context [drawCallStack ?g0 ?fs ?h] =>
        destruct (drawCallStack_is_Some g0 fs h) as [[g ht] ->]
    end.
    by eexists.
Qed.

End DrawingFacts.

(** * The claims: the store and the diagram *)
Section DisplayClaims.
Import Py Service Num Config Viz Scenario.

(** With a list that holds itself, a budget of three open calls is used
    up and a budget of four is not: the drawing goes down to level 3 and
    stops there, with four boxes labelled "list". *)
Example drawList_reaches_level_3 :
  drawList 3 self_heap [Reference "id1"; Primitive "a"] #380 #75 0 = None /\
  exists nodes,
    drawList 4 self_heap [Reference "id1"; Primitive "a"] #380 #75 0 = Some nodes /\
    length (List.filter
              (fun n => match n with
                        | SvgText _ _ "list" => true
                        | _ => false
                        end) nodes) = 4%nat.
Proof.
  split; [vm_compute; reflexivity|].
  eexists. split; [vm_compute; reflexivity|]. vm_compute. reflexivity.
Qed.

(** C7: the drawing of nested references ends and does not go deeper
    than level 3, whatever the heap holds, a list that holds itself
    included.  [drawList] at [level] needs no more than [4 - level] calls
    open at once (four from the top, levels 0 to 3), and more budget
    changes nothing; at level 3 or deeper a reference cell gets its
    indicator box and text and the object it refers to is not drawn; the
    rendering effect as a whole always yields a drawing. *)
Theorem C7_nested_drawing_stops_at_level_3 :
  (forall heap elements x y level extra,
      exists nodes,
        drawList (S (3 - level)) heap elements x y level = Some nodes /\
        drawList (S (3 - level) + extra) heap elements x y level = Some nodes) /\
  (forall heap call id obj cellX cellSize y cellHeight index level parentX,
      heap !! id = Some obj -> (3 <= level)%nat ->
      exists indicator,
        renderReferenceElement heap call id cellX cellSize y cellHeight
                               index level parentX =
        Some [createRect (cellX + cellSize * frac 1 2 - #12)%num
                         (y + cellHeight * frac 1 2 - #10)%num (#24)%num (#20)%num;
              createText (cellX + cellSize * frac 1 2)%num
                         (y + cellHeight * frac 1 2 + #5)%num indicator]) /\
  (forall clientWidth executionState prevState s,
      is_Some (render_effect clientWidth executionState prevState s)).
Proof.
  split; [|split].
  - intros heap elements x y level extra.
    destruct (drawList_enough heap (3 - level) level (S (3 - level))) as [Hsome Hext];
      [lia..|].
    destruct (Hsome elements x y) as [nodes Hnodes]. exists nodes.
    split; [exact Hnodes|]. rewrite <- Hnodes. apply Hext. lia.
  - intros heap call id obj cellX cellSize y cellHeight index level parentX Hobj Hlevel.
    unfold renderReferenceElement. rewrite Hobj.
    assert (Nat.ltb level 3 = false) as -> by (apply Nat.ltb_ge; lia).
    eexists. reflexivity.
  - intros. apply render_effect_is_Some.
Qed.

(** The cell of the list that holds itself, at level 3. *)
Lemma C7_witness :
  exists indicator,
    renderReferenceElement self_heap (fun _ _ _ _ => None) "id1"
                           (#380)%num (#100)%num (#75)%num (#35)%num 0 3 (#380)%num =
    Some [createRect (#380 + #100 * frac 1 2 - #12)%num
                     (#75 + #35 * frac 1 2 - #10)%num (#24)%num (#20)%num;
          createText (#380 + #100 * frac 1 2)%num
                     (#75 + #35 * frac 1 2 + #5)%num indicator].
Proof.
  apply (proj1 (proj2 C7_nested_drawing_stops_at_level_3) self_heap
           (fun _ _ _ _ => None) "id1"
           (mkEntry (HList "list" [Reference "id1"; Primitive "a"]) None)).
  - reflexivity.
  - lia.
Defined.

(** C9: [setCurrentStepIndex(i)] leaves the store as it is when [i] is
    outside [0, len(steps)); when [i] is inside, the current index
    becomes [i] and the execution state becomes step [i] (its frame, heap
    and line) with the output of the last step in place of its own, the
    rest of the store staying as it is. *)
Theorem C9_jump_to_step i s :
  (i < 0 \/ Z.of_nat (length (executionSteps s)) <= i ->
   setCurrentStepIndex i s = s) /\
  (0 <= i < Z.of_nat (length (executionSteps s)) ->
   exists step lastStep,
     executionSteps s !! Z.to_nat i = Some step /\
     last (executionSteps s) = Some lastStep /\
     setCurrentStepIndex i s =
       mkStore (isInitialized s) (isRunning s) (error s) (executionSteps s) i
               (mkSnapshot (snap_name step) (snap_variables step) (snap_heap step)
                           (snap_output lastStep) (snap_line step))).
Proof.
  unfold setCurrentStepIndex. split.
  - intros H.
    assert ((0 <=? i) && (i <? Z.of_nat (length (executionSteps s))) = false) as ->;
      [|reflexivity].
    apply andb_false_iff. destruct H; [left; lia | right; lia].
  - intros H.
    assert ((0 <=? i) && (i <? Z.of_nat (length (executionSteps s))) = true) as ->.
    { apply andb_true_iff. split; lia. }
    destruct (lookup_lt_is_Some_2 (executionSteps s) (Z.to_nat i)) as [step Hstep]; [lia|].
    rewrite Hstep. unfold with_output, output_of_last.
    destruct (last (executionSteps s)) as [lastStep|] eqn:Hlast.
    + by exists step, lastStep.
    + apply last_None in Hlast. rewrite Hlast in H. cbn in H. lia.
Qed.

(** A store with two snapshots: index 5 changes nothing, index 0 shows
    the first snapshot with the output of the second. *)
Lemma C9_witness :
  setCurrentStepIndex 5 two_steps = two_steps /\
  exists step lastStep,
    executionSteps two_steps !! Z.to_nat 0 = Some step /\
    last (executionSteps two_steps) = Some lastStep /\
    setCurrentStepIndex 0 two_steps =
      mkStore (isInitialized two_steps) (isRunning two_steps) (error two_steps)
              (executionSteps two_steps) 0
              (mkSnapshot (snap_name step) (snap_variables step) (snap_heap step)
                          (snap_output lastStep) (snap_line step)).
Proof.
  split.
  - apply (proj1 (C9_jump_to_step 5 two_steps)). right. cbn. lia.
  - apply (proj2 (C9_jump_to_step 0 two_steps)). cbn. lia.
Defined.

(** C10: whenever the output of the current execution state contains
    "not found or not supported" or "ImportError", the rendering effect
    (with the SVG element mounted) leaves the store with no execution
    steps and with the error text of the effect, its other fields as they
    were, and leaves in the SVG nothing but the import-error panel: one
    group with the box, the icon, the title "Import Error" and three
    lines of text, on a height of 250.  No frame and no heap object is
    drawn, and the state kept for transitions is not touched.  Where the
    text comes from plays no part. *)
Theorem C10_output_text_brings_error_panel clientWidth state prevState s :
  Str.includes (es_output state) "not found or not supported" = true \/
  Str.includes (es_output state) "ImportError" = true ->
  render_effect clientWidth state prevState s =
    Some (mkStore (isInitialized s) (isRunning s)
            (Some "This code contains imports that aren't supported in the browser environment. Try modifying the code to use built-in modules only.")
            [] (currentStepIndex s) (executionState s),
          prevState,
          mkRendering
            [SvgGroup "" #40 #65
               [SvgRect #0 #0 (Num.min #600 (clientWidth - #80)) #150 false;
                SvgRect #30 #30 #40 #40 false;
                SvgText #90 #45 "Import Error";
                SvgText #30 #90
                  "This code contains imports that aren't supported in the browser environment.";
                SvgText #30 #112
                  "Module 'requests' cannot be imported in this Python Tutor visualization.";
                SvgText #30 #134
                  "Try modifying the code to use built-in modules only."]]
            (Some #250) false)%num.
Proof.
  intros H.
  assert (detectImportError state = true) as Hdetect.
  { unfold detectImportError.
    destruct (es_output state) as [|c out].
    - destruct H as [H|H]; cbn in H; discriminate.
    - change (String.eqb (String c out) "") with false. cbn [negb andb].
      destruct H as [-> | ->]; [reflexivity|]. by rewrite orb_true_r. }
  unfold render_effect. rewrite Hdetect. reflexivity.
Qed.

(** The run of [print("ImportError")] ends without an error and with a
    step in the store; the snapshot it puts on display brings up the
    error panel, and the store is left with the error and without
    steps. *)
Lemma C10_witness :
  let s := fst (runCode cpython Scenario.error_message shout_run initial_store
                        initial_state) in
  error s = None /\
  length (executionSteps s) = 1%nat /\
  render_effect (#1000)%num (of_snapshot (executionState s)) None s =
    Some (mkStore (isInitialized s) (isRunning s)
            (Some "This code contains imports that aren't supported in the browser environment. Try modifying the code to use built-in modules only.")
            [] (currentStepIndex s) (executionState s),
          None,
          mkRendering
            [SvgGroup "" #40 #65
               [SvgRect #0 #0 (Num.min #600 (#1000 - #80)) #150 false;
                SvgRect #30 #30 #40 #40 false;
                SvgText #90 #45 "Import Error";
                SvgText #30 #90
                  "This code contains imports that aren't supported in the browser environment.";
                SvgText #30 #112
                  "Module 'requests' cannot be imported in this Python Tutor visualization.";
                SvgText #30 #134
                  "Try modifying the code to use built-in modules only."]]
            (Some #250) false)%num.
Proof.
  split; [reflexivity|]. split; [reflexivity|].
  apply C10_output_text_brings_error_panel. right. vm_compute. reflexivity.
Defined.

End DisplayClaims.
